(** * Ensemble: model selection and walk-forward evaluation

    A shallow embedding of [ensemble_algorithms/ensemble_cross_validation.py]
    and [ensemble_algorithms/ensemble_bagging_regression.py].

    Conventions of the embedding:
    - [np.float64] values (the series, the scores, the forecasts) are exact
      rationals [Q]: no rounding and no NaN.  Python's [<] and [>] on them
      are [Qltb] and its converse.
    - a pandas Series is the list of its values, in index order; only
      positional slices are taken from it.
    - a Python [dict] is an association list in insertion order with
      distinct keys (the iteration order of CPython 3.7 and later).
    - exceptions, the log and the ambient state read by the estimators
      (numpy's global random generator) are threaded by the monad [M]. *)

From Stdlib Require Import List ZArith QArith String Bool Lia Lqa Arith.
Import ListNotations.

Local Open Scope Z_scope.

(** ** Python values *)

(** The exceptions the two scripts can raise or let through. *)
Inductive exn : Type :=
| ValueError
| AssertionError
| TypeError
| IndexError
| InsufficientHistory.

Definition num : Type := Q.

(** [a < b] on floats. *)
Definition Qltb (a b : Q) : bool := negb (Qle_bool b a).

(** [a > b] on floats. *)
Definition Qgtb (a b : Q) : bool := Qltb b a.

Module Py.

(** Start or stop of a slice of a sequence of length [n], as Python
    normalises it: a negative bound counts from the end, and the result is
    clamped to [0..n]. *)
Definition slice_bound (n : nat) (k : Z) : nat :=
  if k <? 0 then Z.to_nat (Z.max 0 (Z.of_nat n + k))
  else Z.to_nat (Z.min k (Z.of_nat n)).

(** [l[:k]] *)
Definition slice_to {A} (l : list A) (k : Z) : list A :=
  firstn (slice_bound (List.length l) k) l.

(** [l[k:]] *)
Definition slice_from {A} (l : list A) (k : Z) : list A :=
  skipn (slice_bound (List.length l) k) l.

(** [l[a:b]] *)
Definition slice {A} (l : list A) (a b : Z) : list A :=
  skipn (slice_bound (List.length l) a)
        (firstn (slice_bound (List.length l) b) l).

(** [len(l)] *)
Definition len {A} (l : list A) : Z := Z.of_nat (List.length l).

(** [range(n)]: empty when [n <= 0]. *)
Definition range (n : Z) : list Z :=
  map Z.of_nat (seq 0 (Z.to_nat n)).

(** [range(start, stop, step)] for a positive step. *)
Definition range3 (start stop step : nat) : list nat :=
  map (fun j => (start + j * step)%nat)
      (seq 0 ((stop - start + step - 1) / step)%nat).

(** A dict with string keys. *)
Definition dict (V : Type) : Type := list (string * V).

Definition keys {V} (d : dict V) : list string := map fst d.

(** [d.get(k)] *)
Fixpoint get {V} (d : dict V) (k : string) : option V :=
  match d with
  | [] => None
  | (k', v) :: d' => if String.eqb k' k then Some v else get d' k
  end.

(** [d[k] = v]: an existing key keeps its place, a new one goes last. *)
Fixpoint set {V} (d : dict V) (k : string) (v : V) : dict V :=
  match d with
  | [] => [(k, v)]
  | (k', v') :: d' =>
      if String.eqb k' k then (k', v) :: d' else (k', v') :: set d' k v
  end.

(** The loop shared by [max(iterable, key=f)] and [min(iterable, key=f)]:
    the running best is replaced only when [op val best_val] holds, with
    [op] the comparison [>] for [max] and [<] for [min], so the first
    extremal item wins.  Comparing [None] (a missing key) with a float
    raises [TypeError]. *)
Fixpoint min_max_loop (op : num -> num -> bool) (f : string -> option num)
         (best : string) (bv : num) (l : list string) : exn + string :=
  match l with
  | [] => inr best
  | k :: l' =>
      match f k with
      | None => inl TypeError
      | Some v =>
          if op v bv then min_max_loop op f k v l'
          else min_max_loop op f best bv l'
      end
  end.

(** [ValueError] on an empty iterable. *)
Definition min_max (op : num -> num -> bool) (f : string -> option num)
           (l : list string) : exn + string :=
  match l with
  | [] => inl ValueError
  | k :: l' =>
      match f k with
      | None => inl TypeError
      | Some v => min_max_loop op f k v l'
      end
  end.

(** [max(d, key=d.get)] *)
Definition max_key (d : dict num) : exn + string :=
  min_max Qgtb (get d) (keys d).

(** [min(d, key=d.get)] *)
Definition min_key (d : dict num) : exn + string :=
  min_max Qltb (get d) (keys d).

(** [numpy.ndarray.mean] of a one-dimensional array. *)
Definition mean (l : list num) : num :=
  (fold_left Qplus l 0 / inject_Z (len l))%Q.

(** [X[idx]] for an array of positions; a position out of range raises
    [IndexError]. *)
Fixpoint take {A} (X : list A) (idx : list nat) : exn + list A :=
  match idx with
  | [] => inr []
  | i :: idx' =>
      match nth_error X i, take X idx' with
      | Some x, inr xs => inr (x :: xs)
      | None, _ => inl IndexError
      | _, inl e => inl e
      end
  end.

End Py.

(** ** Effects *)

(** What a run does that an observer of the process can see, in order. *)
Inductive event : Type :=
| Warn (msg : string)                      (* logger.warning(msg) *)
| WarnScores (score : Py.dict num)         (* logger.warning(score) *)
| Fit (estimator : string) (X : list num)  (* estimator.fit(X) *)
| Score (estimator : string) (X : list num)
| Predict (estimator : string) (X : list num)
| Forecast (algo : string) (data : list num)
| WarnValue (msg : string) (v : num)       (* logger.warning(msg % v) *)
| ToCsv (observation : option (list num)) (prediction : list num).

(** The data of the [fit] calls of a log, in order. *)
Definition fits (t : list event) : list (list num) :=
  flat_map (fun e => match e with Fit _ X => [X] | _ => [] end) t.

(** The forecast calls of a log: strategy and data, in order. *)
Definition forecasts (t : list event) : list (string * list num) :=
  flat_map (fun e => match e with
                     | Forecast a data => [(a, data)]
                     | _ => []
                     end) t.

Section Effects.

(** The ambient state the collaborators read and write: numpy's global
    random generator, from which the bagging estimators draw resamples. *)
Variable world : Type.

(** A computation: from the ambient state to the new one, the events it
    logged, and the exception it raised or the value it returned. *)
Definition M (A : Type) : Type := world -> world * list event * (exn + A).

Definition ret {A} (a : A) : M A := fun w => (w, [], inr a).

Definition bind {A B} (m : M A) (f : A -> M B) : M B :=
  fun w =>
    match m w with
    | (w1, t1, inl e) => (w1, t1, inl e)
    | (w1, t1, inr a) =>
        match f a w1 with
        | (w2, t2, r) => (w2, t1 ++ t2, r)
        end
    end.

Definition raise {A} (e : exn) : M A := fun w => (w, [], inl e).

Definition tell (ev : event) : M unit := fun w => (w, [ev], inr tt).

(** A pure step that may raise. *)
Definition lift {A} (r : exn + A) : M A := fun w => (w, [], r).

(** A call into a collaborator, logged as [ev]. *)
Definition call {A} (ev : event) (f : world -> world * (exn + A)) : M A :=
  fun w => match f w with (w', r) => (w', [ev], r) end.

(** [assert c] *)
Definition assert (c : bool) : M unit :=
  if c then ret tt else raise AssertionError.

Fixpoint mapM {A B} (f : A -> M B) (l : list A) : M (list B) :=
  match l with
  | [] => ret []
  | a :: l' =>
      bind (f a) (fun b => bind (mapM f l') (fun bs => ret (b :: bs)))
  end.

(** A [for] loop that updates an accumulator. *)
Fixpoint foldM {A S} (f : S -> A -> M S) (s : S) (l : list A) : M S :=
  match l with
  | [] => ret s
  | a :: l' => bind (f s a) (fun s' => foldM f s' l')
  end.

End Effects.

Arguments ret {world A} a.
Arguments bind {world A B} m f.
Arguments raise {world A} e.
Arguments tell {world} ev.
Arguments lift {world A} r.
Arguments call {world A} ev f.
Arguments assert {world} c.
Arguments mapM {world A B} f l.
Arguments foldM {world A S} f s l.

Declare Scope py_scope.
Delimit Scope py_scope with py.
Notation "x <- m ;; k" := (bind m (fun x => k))
  (at level 61, m at next level, right associativity) : py_scope.
Notation "m ;; k" := (bind m (fun _ => k))
  (at level 61, right associativity) : py_scope.

(** ** The estimators *)

(** Modelled from the spec: the module [estimators] (NaiveEstimator,
    ArEstimator, ..., NaiveBaggingEstimator, ...) is not part of the
    sources.  An estimator has the contract of section 4.1: [fit] on a
    history gives its fitted state, [predict] gives forecasts for a window,
    [score] gives a scalar for a holdout.  Each may raise and may use the
    ambient state.  [name] is the class name. *)
Record Estimator (world state : Type) : Type := {
  name : string;
  fit : list num -> world -> world * (exn + state);
  predict : state -> list num -> world -> world * (exn + list num);
  score : state -> list num -> world -> world * (exn + num)
}.

Arguments name {world state} _.
Arguments fit {world state} _ _ _.
Arguments predict {world state} _ _ _ _.
Arguments score {world state} _ _ _ _.

(** ** scikit-learn *)

Module Sklearn.

Import Py.

(** [TimeSeriesSplit(n_splits).split(X)] with [n_samples = len(X)], as
    scikit-learn computes it with its default parameters: the constructor
    rejects [n_splits <= 1]; [split] rejects [n_splits + 1 > n_samples];
    the validation blocks have [n_samples // (n_splits + 1)] positions and
    start at [range(n_samples - n_splits * test_size, n_samples, test_size)];
    each split is [(indices[:test_start],
    indices[test_start:test_start + test_size])]. *)
Definition TimeSeriesSplit (n_splits n_samples : nat)
  : exn + list (list nat * list nat) :=
  if (n_splits <=? 1)%nat then inl ValueError
  else
    let n_folds := (n_splits + 1)%nat in
    if (n_samples <? n_folds)%nat then inl ValueError
    else
      let indices := seq 0 n_samples in
      let test_size := (n_samples / n_folds)%nat in
      let test_starts :=
        range3 (n_samples - n_splits * test_size) n_samples test_size in
      inr (map (fun test_start =>
                  (slice_to indices (Z.of_nat test_start),
                   slice indices (Z.of_nat test_start)
                         (Z.of_nat (test_start + test_size))))
               test_starts).

Section CrossVal.

Context {world state : Type}.

Local Open Scope py_scope.

(** One fold of [cross_val_score]: a fresh clone of the estimator is fit on
    [X[train]] and scored on [X[test]]. *)
Definition fit_and_score (est : Estimator world state) (X : list num)
           (fold : list nat * list nat) : M world num :=
  X_train <- lift (take X (fst fold)) ;;
  X_test <- lift (take X (snd fold)) ;;
  st <- call (Fit (name est) X_train) (fit est X_train) ;;
  call (Score (name est) X_test) (score est st X_test).

(** [cross_val_score(est, X, cv=TimeSeriesSplit(n_splits).split(X))]: the
    splits are listed first, then every fold is fit and scored in order;
    the first exception ends the call. *)
Definition cross_val_score (est : Estimator world state) (X : list num)
           (n_splits : nat) : M world (list num) :=
  cv <- lift (TimeSeriesSplit n_splits (List.length X)) ;;
  mapM (fit_and_score est X) cv.

End CrossVal.

End Sklearn.

(** ** ensemble_cross_validation.py *)

(** Modelled from the spec: the module [genetic_algorithm.forecast] is not
    part of the sources.  [ForecastAlgorithms()] offers one forecast
    function per strategy; each is given [data] and forecasts exactly one
    step ahead (section 4.6), so it returns one value; it may raise and may
    use the ambient state. *)
Record ForecastAlgorithms (world : Type) : Type := {
  naive_forecast : list num -> world -> world * (exn + num);
  ar_forecast : list num -> world -> world * (exn + num);
  arma_forecast : list num -> world -> world * (exn + num);
  arima_forecast : list num -> world -> world * (exn + num);
  ets_forecast : list num -> world -> world * (exn + num)
}.

Arguments naive_forecast {world} _ _ _.
Arguments ar_forecast {world} _ _ _.
Arguments arma_forecast {world} _ _ _.
Arguments arima_forecast {world} _ _ _.
Arguments ets_forecast {world} _ _ _.

Module EnsembleCrossValidation.

Import Py Sklearn.

(** The attributes of an instance. *)
Record self : Type := {
  series : list num;
  test_size : Z;
  test_series : list num;
  best_algo : string
}.

Section Class.

Context {world state : Type}.
Variables NaiveEstimator ArEstimator ArmaEstimator ArimaEstimator
          EtsEstimator : Estimator world state.
Variable algo : ForecastAlgorithms world.

Local Open Scope string_scope.
Local Open Scope Z_scope.
Local Open Scope list_scope.
Local Open Scope py_scope.

(** Lines 58-69: the mean score of the 10-fold evaluation of each
    strategy. *)
Definition score_mapping (eval_series : list num)
  : M world (dict num) :=
  let score := [] in
  s <- cross_val_score NaiveEstimator eval_series 10 ;;
  let score := set score "naive" (mean s) in
  s <- cross_val_score ArEstimator eval_series 10 ;;
  let score := set score "ar" (mean s) in
  s <- cross_val_score ArmaEstimator eval_series 10 ;;
  let score := set score "arma" (mean s) in
  s <- cross_val_score ArimaEstimator eval_series 10 ;;
  let score := set score "arima" (mean s) in
  s <- cross_val_score EtsEstimator eval_series 10 ;;
  let score := set score "ets" (mean s) in
  ret score.

(** Line 72: the strategy with the maximal score. *)
Definition select (score : dict num) : exn + string := max_key score.

(** [EnsembleCrossValidation(file_path, test_size)], from the series that
    [pd.read_csv(file_path)] returned. *)
Definition __init__ (series : list num) (test_size : Z) : M world self :=
  if test_size <=? 0 then raise ValueError
  else
    let eval_series := slice_to series (- test_size) in
    let test_series := slice_from series (- test_size) in
    tell (Warn "Deciding best algorithm") ;;
    score <- score_mapping eval_series ;;
    best_algo <- lift (select score) ;;
    tell (Warn ("Best Algorithm: " ++ best_algo)%string) ;;
    ret {| series := series; test_size := test_size;
           test_series := test_series; best_algo := best_algo |}.

(** The body of the loop of one branch of [run_test]:
    [results = np.append(results, forecast(data=self.test_series[i:]))]. *)
Definition step (algo_name : string)
           (forecast : list num -> world -> world * (exn + num))
           (o : self) (results : list num) (i : Z) : M world (list num) :=
  let data := slice_from (test_series o) i in
  x <- call (Forecast algo_name data) (forecast data) ;;
  ret (results ++ [x]).

(** [for i in range(self.test_size): ...] *)
Definition walk (algo_name : string)
           (forecast : list num -> world -> world * (exn + num))
           (o : self) (results : list num) : M world (list num) :=
  foldM (step algo_name forecast o) results (range (test_size o)).

(** [run_test]: the forecasts written to [result_path]. *)
Definition run_test (o : self) : M world (list num) :=
  let results := [] in
  results <-
    (if (best_algo o =? "naive")%string then
       tell (Warn "Running Naive Algorithm on Test Data") ;;
       walk "naive" (naive_forecast algo) o results
     else if (best_algo o =? "ar")%string then
       tell (Warn "Running AR Algorithm on Test Data") ;;
       walk "ar" (ar_forecast algo) o results
     else if (best_algo o =? "arma")%string then
       tell (Warn "Running ARMA Algorithm on Test Data") ;;
       walk "arma" (arma_forecast algo) o results
     else if (best_algo o =? "arima")%string then
       tell (Warn "Running ARIMA Algorithm on Test Data") ;;
       walk "arima" (arima_forecast algo) o results
     else if (best_algo o =? "ets")%string then
       tell (Warn "Running ETS Algorithm on Test Data") ;;
       walk "ets" (ets_forecast algo) o results
     else raise AssertionError) ;;
  tell (ToCsv None results) ;;
  ret results.

(** [main()], from the series that [pd.read_csv(args.data)] returns. *)
Definition main (series : list num) : M world unit :=
  tell (Warn "Starting Ensemble Cross Validation") ;;
  algo <- __init__ series 342 ;;
  run_test algo ;;
  tell (Warn "Stopping Ensemble Cross Validation").

End Class.

End EnsembleCrossValidation.

(** ** ensemble_bagging_regression.py *)

Module EnsembleBagging.

Import Py Sklearn.

Record self : Type := {
  series : list num;
  test_size : Z;
  eval_series : list num;
  test_series : list num;
  best_algo : string
}.

Section Class.

Context {world state : Type}.
Variables NaiveBaggingEstimator ArBaggingEstimator ArmaBaggingEstimator
          ArimaBaggingEstimator EtsBaggingEstimator : Estimator world state.

Local Open Scope string_scope.
Local Open Scope Z_scope.
Local Open Scope list_scope.
Local Open Scope py_scope.

(** Lines 62-78: the mean score of the 10-fold evaluation of each bagging
    ensemble. *)
Definition score_mapping (eval_series : list num)
  : M world (dict num) :=
  let score := [] in
  tell (Warn "Scoring Naive Bagging") ;;
  s <- cross_val_score NaiveBaggingEstimator eval_series 10 ;;
  let score := set score "naive" (mean s) in
  tell (Warn "Scoring AR Bagging") ;;
  s <- cross_val_score ArBaggingEstimator eval_series 10 ;;
  let score := set score "ar" (mean s) in
  tell (Warn "Scoring ARMA Bagging") ;;
  s <- cross_val_score ArmaBaggingEstimator eval_series 10 ;;
  let score := set score "arma" (mean s) in
  tell (Warn "Scoring ARIMA Bagging") ;;
  s <- cross_val_score ArimaBaggingEstimator eval_series 10 ;;
  let score := set score "arima" (mean s) in
  tell (Warn "Scoring ETS Bagging") ;;
  s <- cross_val_score EtsBaggingEstimator eval_series 10 ;;
  let score := set score "ets" (mean s) in
  ret score.

(** Line 83: the strategy with the minimal score. *)
Definition select (score : dict num) : exn + string := min_key score.

(** [EnsembleBagging(file_path, test_size)], from the series that
    [pd.read_csv(file_path)] returned. *)
Definition __init__ (series : list num) (test_size : Z) : M world self :=
  if test_size <=? 0 then raise ValueError
  else
    let eval_series := slice_to series (- test_size) in
    let test_series := slice_from series (- test_size) in
    assert (len test_series =? test_size) ;;
    assert (len test_series + len eval_series =? len series) ;;
    tell (Warn "Deciding best algorithm...") ;;
    score <- score_mapping eval_series ;;
    tell (WarnScores score) ;;
    best_algo <- lift (select score) ;;
    tell (Warn ("Best Algorithm: " ++ best_algo)%string) ;;
    ret {| series := series; test_size := test_size;
           eval_series := eval_series; test_series := test_series;
           best_algo := best_algo |}.

(** Lines 88-105: the estimator of the selected strategy. *)
Definition assign_estimator (o : self) : M world (Estimator world state) :=
  if (best_algo o =? "naive")%string then
    tell (Warn "Running Naive Bagging on Test Data") ;;
    ret NaiveBaggingEstimator
  else if (best_algo o =? "ar")%string then
    tell (Warn "Running AR Bagging on Test Data") ;;
    ret ArBaggingEstimator
  else if (best_algo o =? "arma")%string then
    tell (Warn "Running ARMA Bagging on Test Data") ;;
    ret ArmaBaggingEstimator
  else if (best_algo o =? "arima")%string then
    tell (Warn "Running ARIMA Bagging on Test Data") ;;
    ret ArimaBaggingEstimator
  else if (best_algo o =? "ets")%string then
    tell (Warn "Running ETS Bagging on Test Data") ;;
    ret EtsBaggingEstimator
  else raise AssertionError.

(** [run_test]: the predictions written to [result_path]. *)
Definition run_test (o : self) : M world (list num) :=
  estimator <- assign_estimator o ;;
  st <- call (Fit (name estimator) (eval_series o))
             (fit estimator (eval_series o)) ;;
  results <- call (Predict (name estimator) (test_series o))
                  (predict estimator st (test_series o)) ;;
  score <- call (Score (name estimator) (test_series o))
                (score estimator st (test_series o)) ;;
  tell (WarnValue "Estimator Score: %s" score) ;;
  tell (ToCsv (Some (test_series o)) results) ;;
  ret results.

(** [main()]: the constructor is called with its default
    [test_size=342]. *)
Definition main (series : list num) : M world unit :=
  tell (Warn "Starting Ensemble Bagging") ;;
  algo <- __init__ series 342 ;;
  run_test algo ;;
  tell (Warn "Stopping Ensemble Bagging").

End Class.

End EnsembleBagging.

(** * Specification vocabulary *)

(** ** Folds *)

(** Size of a validation block and start of the [j]-th one. *)
Definition block (K N : nat) : nat := (N / (K + 1))%nat.
Definition origin (K N j : nat) : nat :=
  (N - K * block K N + j * block K N)%nat.

Section CrossValSpec.

Import Py Sklearn.

Context {world state : Type}.
Variable est : Estimator world state.
Variable X : list num.

(** [scored est X w cv scores w']: starting in [w], fitting on the train
    part and scoring on the validation part of each fold of [cv], in
    order, succeeds with [scores] and ends in [w']. *)
Inductive scored : world -> list (list nat * list nat) -> list num ->
                   world -> Prop :=
| scored_nil w : scored w [] [] w
| scored_cons w w1 w2 w3 fold cv X_train X_test st s scores :
    take X (fst fold) = inr X_train ->
    take X (snd fold) = inr X_test ->
    fit est X_train w = (w1, inr st) ->
    score est st X_test w1 = (w2, inr s) ->
    scored w2 cv scores w3 ->
    scored w (fold :: cv) (s :: scores) w3.

(** [fold_scores est X w scores w']: [scores] are the scores of the
    estimator on the 10 rolling-origin folds of [X]. *)
Definition fold_scores (w : world) (scores : list num) (w' : world)
  : Prop :=
  exists cv,
    TimeSeriesSplit 10 (List.length X) = inr cv /\
    List.length cv = 10%nat /\
    List.length scores = 10%nat /\
    scored w cv scores w'.

(** An estimator whose [fit] and [score] never raise. *)
Definition never_raises : Prop :=
  (forall X0 w, exists w' st, fit est X0 w = (w', inr st)) /\
  (forall st X0 w, exists w' s, score est st X0 w = (w', inr s)).

End CrossValSpec.

(** ** Strategies *)

(** The order in which both constructors enter the strategies into
    [score]. *)
Definition enumeration : list string :=
  ["naive"; "ar"; "arma"; "arima"; "ets"]%string.



(** The forecast function that [run_test] calls for a strategy. *)
Definition forecast_of {world} (algo : ForecastAlgorithms world)
           (algo_name : string)
  : option (list num -> world -> world * (exn + num)) :=
  if (algo_name =? "naive")%string then Some (naive_forecast algo)
  else if (algo_name =? "ar")%string then Some (ar_forecast algo)
  else if (algo_name =? "arma")%string then Some (arma_forecast algo)
  else if (algo_name =? "arima")%string then Some (arima_forecast algo)
  else if (algo_name =? "ets")%string then Some (ets_forecast algo)
  else None.

(** The estimator that the bagging [run_test] assigns for a strategy. *)
Definition estimator_of {world state}
           (e1 e2 e3 e4 e5 : Estimator world state) (algo_name : string)
  : option (Estimator world state) :=
  if (algo_name =? "naive")%string then Some e1
  else if (algo_name =? "ar")%string then Some e2
  else if (algo_name =? "arma")%string then Some e3
  else if (algo_name =? "arima")%string then Some e4
  else if (algo_name =? "ets")%string then Some e5
  else None.

(** What a constructor run lets an observer learn about the selection:
    the ambient state it left, its log, and the identifier it selected or
    the exception it raised. *)
Definition cv_selected {world}
           (r : world * list event * (exn + EnsembleCrossValidation.self))
  : world * list event * (exn + string) :=
  match r with
  | (w, t, inl e) => (w, t, inl e)
  | (w, t, inr o) => (w, t, inr (EnsembleCrossValidation.best_algo o))
  end.

Definition bag_selected {world}
           (r : world * list event * (exn + EnsembleBagging.self))
  : world * list event * (exn + string) :=
  match r with
  | (w, t, inl e) => (w, t, inl e)
  | (w, t, inr o) => (w, t, inr (EnsembleBagging.best_algo o))
  end.

(** ** Concrete collaborators *)

Module Demo.

Local Open Scope string_scope.
Local Open Scope Q_scope.

(** The ambient state counts the [fit] calls made so far. *)
Definition world : Type := nat.

(** A fitted estimator keeps the history it was fit on. *)
Definition state : Type := list num.

(** Modelled from the spec: the Naive strategy of section 4.1, "forecast =
    last observed value"; with no observation there is nothing to
    forecast from. *)
Definition last_observed (data : list num) : exn + num :=
  match rev data with
  | [] => inl InsufficientHistory
  | x :: _ => inr x
  end.

(** An estimator that predicts the last value of its history for every
    step of the window and scores itself [c] on every holdout. *)
Definition persistence (cls : string) (c : num) : Estimator world state :=
  {| name := cls;
     fit := fun X w => (S w, inr X);
     predict := fun st X w =>
                  (w, match last_observed st with
                      | inl e => inl e
                      | inr x => inr (map (fun _ => x) X)
                      end);
     score := fun _ _ w => (w, inr c) |}.

Definition NaiveEstimator := persistence "NaiveEstimator" (5#1).
Definition ArEstimator := persistence "ArEstimator" (3#1).
Definition ArmaEstimator := persistence "ArmaEstimator" (2#1).
Definition ArimaEstimator := persistence "ArimaEstimator" (4#2).
Definition EtsEstimator := persistence "EtsEstimator" (5#1).

Definition algo : ForecastAlgorithms world :=
  {| naive_forecast := fun data w => (w, last_observed data);
     ar_forecast := fun data w => (w, last_observed data);
     arma_forecast := fun data w => (w, last_observed data);
     arima_forecast := fun data w => (w, last_observed data);
     ets_forecast := fun data w => (w, last_observed data) |}.

(** [main()] of ensemble_cross_validation.py on a loaded series, with the
    test-window length as a parameter. *)
Definition cross_validation (series : list num) (T : Z)
  : world * list event * (exn + list num) :=
  bind (EnsembleCrossValidation.__init__
          NaiveEstimator ArEstimator ArmaEstimator ArimaEstimator
          EtsEstimator series T)
       (EnsembleCrossValidation.run_test algo) 0%nat.

(** [main()] of ensemble_bagging_regression.py, likewise. *)
Definition bagging (series : list num) (T : Z)
  : world * list event * (exn + list num) :=
  bind (EnsembleBagging.__init__
          NaiveEstimator ArEstimator ArmaEstimator ArimaEstimator
          EtsEstimator series T)
       (EnsembleBagging.run_test
          NaiveEstimator ArEstimator ArmaEstimator ArimaEstimator
          EtsEstimator) 0%nat.

(** Two series of 13 hourly values that differ in the last one only. *)
Definition series_a : list num :=
  [1#1; 2#1; 3#1; 4#1; 5#1; 6#1; 7#1; 8#1; 9#1; 10#1; 11#1; 20#1; 30#1].
Definition series_b : list num :=
  [1#1; 2#1; 3#1; 4#1; 5#1; 6#1; 7#1; 8#1; 9#1; 10#1; 11#1; 20#1; 40#1].

(** The instance that the cross-validation constructor builds from
    [series_a] with a test window of 2 values. *)
Definition o_a : EnsembleCrossValidation.self :=
  {| EnsembleCrossValidation.series := series_a;
     EnsembleCrossValidation.test_size := 2;
     EnsembleCrossValidation.test_series := [20#1; 30#1];
     EnsembleCrossValidation.best_algo := "naive" |}.

Definition init_a
  : world * list event * (exn + EnsembleCrossValidation.self) :=
  EnsembleCrossValidation.__init__
    NaiveEstimator ArEstimator ArmaEstimator ArimaEstimator EtsEstimator
    series_a 2 0%nat.

Definition run_a : world * list event * (exn + list num) :=
  EnsembleCrossValidation.run_test algo o_a (fst (fst init_a)).

(** The same for the bagging constructor. *)
Definition bag_o_a : EnsembleBagging.self :=
  {| EnsembleBagging.series := series_a;
     EnsembleBagging.test_size := 2;
     EnsembleBagging.eval_series :=
       [1#1; 2#1; 3#1; 4#1; 5#1; 6#1; 7#1; 8#1; 9#1; 10#1; 11#1];
     EnsembleBagging.test_series := [20#1; 30#1];
     EnsembleBagging.best_algo := "arma" |}.

Definition bag_init_a
  : world * list event * (exn + EnsembleBagging.self) :=
  EnsembleBagging.__init__
    NaiveEstimator ArEstimator ArmaEstimator ArimaEstimator EtsEstimator
    series_a 2 0%nat.

Definition bag_run_a : world * list event * (exn + list num) :=
  EnsembleBagging.run_test
    NaiveEstimator ArEstimator ArmaEstimator ArimaEstimator EtsEstimator
    bag_o_a (fst (fst bag_init_a)).

(** Modelled from the spec: a strategy with a minimum lag order of 2
    (section 4.1): on a history of fewer than 2 values it fails with
    [InsufficientHistory]; otherwise it forecasts the last value. *)
Definition lagged (data : list num) : exn + num :=
  match data with
  | _ :: _ :: _ => last_observed data
  | _ => inl InsufficientHistory
  end.

Definition lagged_algo : ForecastAlgorithms world :=
  {| naive_forecast := fun data w => (w, lagged data);
     ar_forecast := fun data w => (w, lagged data);
     arma_forecast := fun data w => (w, lagged data);
     arima_forecast := fun data w => (w, lagged data);
     ets_forecast := fun data w => (w, lagged data) |}.

Definition lagged_run_a : world * list event * (exn + list num) :=
  EnsembleCrossValidation.run_test lagged_algo o_a (fst (fst init_a)).


(** The hourly series 1, 2, ..., 353: the shortest that [main] accepts. *)
Definition series_353 : list num :=
  map (fun n => inject_Z (Z.of_nat n)) (seq 1 353).

Definition main_353 : world * list event * (exn + unit) :=
  EnsembleCrossValidation.main
    NaiveEstimator ArEstimator ArmaEstimator ArimaEstimator EtsEstimator
    algo series_353 0%nat.

Definition bag_main_353 : world * list event * (exn + unit) :=
  EnsembleBagging.main
    NaiveEstimator ArEstimator ArmaEstimator ArimaEstimator EtsEstimator
    series_353 0%nat.

End Demo.


(** ** Logs *)

(** Every run of [m], whatever its outcome, logs only events that
    satisfy [P]. *)
Definition emits {world A} (P : event -> Prop) (m : M world A) : Prop :=
  forall w w' t r, m w = (w', t, r) -> Forall P t.

(** The data of the [score] calls of a log, in order. *)
Definition score_inputs (t : list event) : list (list num) :=
  flat_map (fun e => match e with Score _ X => [X] | _ => [] end) t.

(** The result files of a log: the columns written, in order. *)
Definition written (t : list event)
  : list (option (list num) * list num) :=
  flat_map (fun e => match e with
                     | ToCsv obs pred => [(obs, pred)]
                     | _ => []
                     end) t.

(** The log of a [cross_val_score] of an estimator of class [cls] on [X]
    that returns: for each of the 10 folds, a fit on the values before the
    fold's origin and a score on the block that starts there. *)
Definition cv_log (cls : string) (X : list num) : list event :=
  flat_map (fun j =>
              [Fit cls (firstn (origin 10 (List.length X) j) X);
               Score cls (firstn (block 10 (List.length X))
                                 (skipn (origin 10 (List.length X) j) X))])
           (seq 0 10).

(** What model selection on [X] may log: warnings, fits on a prefix of
    [X] and scores on a contiguous part of [X]; no prediction, no forecast
    and no result file. *)
Definition selection_event (X : list num) (e : event) : Prop :=
  match e with
  | Warn _ | WarnScores _ => True
  | Fit _ data => exists n, data = firstn n X
  | Score _ data => exists a n, data = firstn n (skipn a X)
  | _ => False
  end.

(** * Properties *)

(** ** The monad *)

Section MonadFacts.

Context {world : Type}.

Lemma bind_ok {A B} (m : M world A) (f : A -> M world B) w w' t b :
  bind m f w = (w', t, inr b) ->
  exists w1 t1 a t2,
    m w = (w1, t1, inr a) /\ f a w1 = (w', t2, inr b) /\ t = t1 ++ t2.
Proof.
  unfold bind. destruct (m w) as [[w1 t1] [e | a]]; [discriminate |].
  destruct (f a w1) as [[w2 t2] r] eqn:Hf. intros H.
  injection H as -> <- ->. exists w1, t1, a, t2. auto.
Qed.

Lemma bind_step {A B} (m : M world A) (f : A -> M world B)
      w w1 t1 a w2 t2 r :
  m w = (w1, t1, inr a) -> f a w1 = (w2, t2, r) ->
  bind m f w = (w2, t1 ++ t2, r).
Proof. intros H1 H2. unfold bind. now rewrite H1, H2. Qed.

Lemma lift_ok {A} (r : exn + A) (w w' : world) t a :
  lift r w = (w', t, inr a) -> r = inr a /\ w' = w /\ t = [].
Proof. unfold lift. intros H. injection H as -> <- ->. auto. Qed.

Lemma tell_ok ev (w w' : world) t u :
  tell ev w = (w', t, inr u) -> w' = w /\ t = [ev].
Proof. unfold tell. intros H. injection H as -> <-. auto. Qed.

Lemma ret_ok {A} (a b : A) (w w' : world) t :
  ret a w = (w', t, inr b) -> b = a /\ w' = w /\ t = [].
Proof. unfold ret. intros H. injection H as -> <- ->. auto. Qed.

Lemma call_ok {A} ev (f : world -> world * (exn + A)) w w' t a :
  call ev f w = (w', t, inr a) -> f w = (w', inr a) /\ t = [ev].
Proof.
  unfold call. destruct (f w) as [w1 r]. intros H.
  injection H as -> <- ->. auto.
Qed.

Lemma assert_ok c (w w' : world) t u :
  assert c w = (w', t, inr u) -> c = true /\ w' = w /\ t = [].
Proof.
  unfold assert. destruct c; [| discriminate].
  intros H. apply ret_ok in H. tauto.
Qed.

End MonadFacts.

(** Decompose a successful run of a sequence of steps. *)
Ltac run_inv H :=
  match type of H with
  | bind _ _ _ = (_, _, inr _) =>
      let w1 := fresh "w" in let t1 := fresh "t" in
      let a := fresh "a" in let t2 := fresh "t" in
      let H1 := fresh "Hstep" in let H2 := fresh "Hrest" in
      let Ht := fresh "Htrace" in
      apply bind_ok in H;
      destruct H as (w1 & t1 & a & t2 & H1 & H2 & Ht);
      run_inv H1; run_inv H2
  | lift _ _ = (_, _, inr _) =>
      apply lift_ok in H; destruct H as (H & ? & ?)
  | tell _ _ = (_, _, inr _) =>
      apply tell_ok in H; destruct H as (? & ?)
  | ret _ _ = (_, _, inr _) =>
      apply ret_ok in H; destruct H as (? & ? & ?)
  | call _ _ _ = (_, _, inr _) =>
      apply call_ok in H; destruct H as (H & ?)
  | assert _ _ = (_, _, inr _) =>
      apply assert_ok in H; destruct H as (H & ? & ?)
  | _ => idtac
  end.

(** ** Slices *)

Section SliceFacts.

Import Py.

Context {A : Type}.

Lemma slice_bound_pos n k :
  (k <= n)%nat -> slice_bound n (Z.of_nat k) = k.
Proof.
  intros H. unfold slice_bound.
  destruct (Z.ltb_spec (Z.of_nat k) 0); lia.
Qed.

(** For a positive [k], a bound [-k] is [n - k], or [0] when [k > n]. *)
Lemma slice_bound_neg n k :
  0 < k -> slice_bound n (- k) = (n - Z.to_nat k)%nat.
Proof.
  intros H. unfold slice_bound.
  destruct (Z.ltb_spec (- k) 0); lia.
Qed.

Lemma slice_to_from (l : list A) k : slice_to l k ++ slice_from l k = l.
Proof. apply firstn_skipn. Qed.

Lemma len_slice_from_neg (l : list A) k :
  0 < k -> len (slice_from l (- k)) = Z.min k (len l).
Proof.
  intros H. unfold len, slice_from.
  rewrite length_skipn, slice_bound_neg by assumption. lia.
Qed.

Lemma len_slice_to_neg (l : list A) k :
  0 < k -> len (slice_to l (- k)) = Z.max 0 (len l - k).
Proof.
  intros H. unfold len, slice_to.
  rewrite length_firstn, slice_bound_neg by assumption. lia.
Qed.

End SliceFacts.

Lemma firstn_seq_le a n s : (a <= n)%nat -> firstn a (seq s n) = seq s a.
Proof.
  intros H. replace n with (a + (n - a))%nat by lia.
  rewrite seq_app, firstn_app, length_seq, Nat.sub_diag. simpl.
  rewrite app_nil_r. apply firstn_all2. rewrite length_seq. lia.
Qed.

(** ** The rolling-origin splitter *)

Module SplitFacts.

Import Py Sklearn.

Lemma block_pos K N : (K + 1 <= N)%nat -> (1 <= block K N)%nat.
Proof.
  intros H. unfold block.
  apply Nat.div_le_lower_bound; lia.
Qed.

Lemma block_fits K N : ((K + 1) * block K N <= N)%nat.
Proof.
  unfold block. apply Nat.Div0.mul_div_le.
Qed.

Lemma origin_end K N j :
  (j < K)%nat -> (origin K N j + block K N <= N)%nat.
Proof.
  intros H. unfold origin. pose proof (block_fits K N). nia.
Qed.

Lemma range3_origins K N :
  (K + 1 <= N)%nat ->
  range3 (N - K * block K N) N (block K N) =
    map (origin K N) (seq 0 K).
Proof.
  intros H. pose proof (block_pos K N H) as Hb.
  pose proof (block_fits K N) as Hf.
  unfold range3.
  replace ((N - (N - K * block K N) + block K N - 1) / block K N)%nat
    with K; [reflexivity |].
  replace (N - (N - K * block K N) + block K N - 1)%nat
    with (K * block K N + (block K N - 1))%nat by nia.
  rewrite Nat.div_add_l by lia.
  rewrite Nat.div_small by lia. lia.
Qed.

(** The splits in closed form: fold [j] trains on the positions before its
    origin and validates on the block that starts there. *)
Lemma TimeSeriesSplit_folds K N :
  (2 <= K)%nat -> (K + 1 <= N)%nat ->
  TimeSeriesSplit K N =
    inr (map (fun j => (seq 0 (origin K N j),
                        seq (origin K N j) (block K N)))
             (seq 0 K)).
Proof.
  intros HK HN. unfold TimeSeriesSplit.
  destruct (Nat.leb_spec K 1); [lia |].
  destruct (Nat.ltb_spec N (K + 1)); [lia |].
  fold (block K N). rewrite range3_origins by assumption.
  rewrite map_map. f_equal. apply map_ext_in.
  intros j Hj. apply in_seq in Hj.
  pose proof (origin_end K N j ltac:(lia)) as He.
  unfold slice_to, slice. rewrite length_seq.
  rewrite !slice_bound_pos by lia.
  rewrite !firstn_seq_le by lia.
  rewrite skipn_seq. f_equal. f_equal; lia.
Qed.

Lemma TimeSeriesSplit_rejects K N :
  (N <= K)%nat -> TimeSeriesSplit K N = inl ValueError.
Proof.
  intros H. unfold TimeSeriesSplit.
  destruct (Nat.leb_spec K 1); [reflexivity |].
  destruct (Nat.ltb_spec N (K + 1)); [reflexivity | lia].
Qed.

Lemma TimeSeriesSplit_ok_inv K N cv :
  TimeSeriesSplit K N = inr cv -> (2 <= K)%nat /\ (K + 1 <= N)%nat.
Proof.
  unfold TimeSeriesSplit.
  destruct (Nat.leb_spec K 1); [discriminate |].
  destruct (Nat.ltb_spec N (K + 1)); [discriminate |]. lia.
Qed.

End SplitFacts.

Module SplitShape.

Import Py Sklearn SplitFacts.

Lemma nth_error_map_seq {B} (g : nat -> B) K i b :
  nth_error (map g (seq 0 K)) i = Some b -> (i < K)%nat /\ b = g i.
Proof.
  rewrite nth_error_map, nth_error_seq.
  destruct (Nat.ltb_spec i K) as [Hi | Hi]; simpl; [| discriminate].
  intros E. injection E as <-. auto.
Qed.

Lemma concat_blocks a ts k s :
  List.concat (map (fun j => seq (a + j * ts) ts) (seq s k)) =
    seq (a + s * ts) (k * ts).
Proof.
  revert s. induction k as [| k IH]; intros s; [reflexivity |].
  simpl. rewrite IH, seq_app. f_equal. f_equal. lia.
Qed.

Lemma validation_blocks K N :
  List.concat (map snd (map (fun j => (seq 0 (origin K N j),
                                  seq (origin K N j) (block K N)))
                       (seq 0 K))) =
    seq (N - K * block K N) (K * block K N).
Proof.
  rewrite map_map. simpl. unfold origin.
  rewrite concat_blocks. f_equal. lia.
Qed.

End SplitShape.

(** C6 (as amended): for every fold count [K >= 2] and every series length
    [N > K], the splitter yields exactly [K] splits; the validation blocks,
    taken in order, enumerate without repetition a suffix of the positions
    that has at least [K] of them; in every split the train range is the
    whole prefix before the validation block, so every validation position
    is greater than every train position; and the train range of a fold is
    strictly contained in that of the next fold. *)
Theorem rolling_origin_splits (N K : nat) :
  (2 <= K)%nat -> (K < N)%nat ->
  exists splits,
    Sklearn.TimeSeriesSplit K N = inr splits /\
    List.length splits = K /\
    (exists L, (K <= L <= N)%nat /\
               List.concat (map snd splits) = seq (N - L) L) /\
    (forall i tr va,
        nth_error splits i = Some (tr, va) ->
        (exists a n, (1 <= n)%nat /\ tr = seq 0 a /\ va = seq a n) /\
        (forall x y, In x tr -> In y va -> (x < y)%nat)) /\
    (forall i tr va tr' va',
        nth_error splits i = Some (tr, va) ->
        nth_error splits (S i) = Some (tr', va') ->
        incl tr tr' /\ (List.length tr < List.length tr')%nat).
Proof.
  intros HK HN.
  pose proof (SplitFacts.block_pos K N ltac:(lia)) as Hb.
  pose proof (SplitFacts.block_fits K N) as Hf.
  eexists. split; [apply SplitFacts.TimeSeriesSplit_folds; lia |].
  split; [now rewrite length_map, length_seq |].
  split.
  - exists (K * block K N)%nat. split; [nia |].
    apply SplitShape.validation_blocks.
  - split.
    + intros i tr va H.
      apply SplitShape.nth_error_map_seq in H. destruct H as [Hi H].
      injection H as -> ->. split.
      * exists (origin K N i), (block K N). auto.
      * intros x y Hx Hy. apply in_seq in Hx, Hy. lia.
    + intros i tr va tr' va' H H'.
      apply SplitShape.nth_error_map_seq in H, H'.
      destruct H as [Hi H], H' as [Hi' H'].
      injection H as -> ->. injection H' as -> ->.
      assert (origin K N i < origin K N (S i))%nat
        as Hlt by (unfold origin; nia).
      split.
      * intros x Hx. apply in_seq in Hx. apply in_seq. lia.
      * rewrite !length_seq. exact Hlt.
Qed.

(** The splitter at [N = K = 10]: the library refuses to split when the
    series has no more values than folds, so no split is produced. *)
Lemma rolling_origin_needs_more_samples_than_folds :
  (10 <= 10)%nat /\
  ~ exists splits,
      Sklearn.TimeSeriesSplit 10 10 = inr splits /\
      List.length splits = 10%nat.
Proof.
  split; [lia |]. intros (splits & H & _). discriminate H.
Qed.

Lemma rolling_origin_splits_witness :
  (2 <= 10)%nat /\ (10 < 25)%nat /\
  exists splits,
    Sklearn.TimeSeriesSplit 10 25 = inr splits /\
    List.length splits = 10%nat.
Proof.
  split; [lia |]. split; [lia |].
  destruct (rolling_origin_splits 25 10) as (splits & H & Hlen & _);
    [lia | lia |].
  exists splits. split; assumption.
Defined.

(** ** The model selector *)

Lemma Qltb_lt a b : Qltb a b = true <-> (a < b)%Q.
Proof.
  unfold Qltb. rewrite negb_true_iff, <- not_true_iff_false, Qle_bool_iff.
  split; [apply Qnot_le_lt | apply Qlt_not_le].
Qed.

Lemma Qltb_ge a b : Qltb a b = false <-> (b <= a)%Q.
Proof.
  unfold Qltb. rewrite negb_false_iff. apply Qle_bool_iff.
Qed.

Section MinMaxLoop.

Import Py.

(** [op] decides [better], whose converse complement is [no_worse]. *)
Variable op : num -> num -> bool.
Variables better no_worse : num -> num -> Prop.
Hypothesis op_true : forall a b, op a b = true -> better a b.
Hypothesis op_false : forall a b, op a b = false -> no_worse b a.
Hypothesis no_worse_refl : forall a, no_worse a a.
Hypothesis better_no_worse : forall a b, better a b -> no_worse a b.
Hypothesis no_worse_better :
  forall a b c, no_worse a b -> better b c -> better a c.
Hypothesis better_then_no_worse :
  forall a b c, better a b -> no_worse b c -> better a c.

Variable f : string -> option num.

(** The loop returns the first extremal item: the items before it are
    strictly worse, the items after it are not better. *)
Lemma min_max_loop_first l : forall best bv,
  f best = Some bv ->
  (forall k, In k l -> exists v, f k = Some v) ->
  exists k v l1 l2,
    min_max_loop op f best bv l = inr k /\
    f k = Some v /\
    best :: l = l1 ++ k :: l2 /\
    no_worse v bv /\
    (forall k' v', In k' l1 -> f k' = Some v' -> better v v') /\
    (forall k' v', In k' l2 -> f k' = Some v' -> no_worse v v').
Proof.
  induction l as [| k l IH]; intros best bv Hbest Hall.
  - exists best, bv, [], []. simpl. repeat split; auto; contradiction.
  - destruct (Hall k (or_introl eq_refl)) as [v Hv].
    assert (Hall' : forall k0, In k0 l -> exists v0, f k0 = Some v0)
      by (intros; apply Hall; now right).
    simpl. rewrite Hv. destruct (op v bv) eqn:Hop.
    + destruct (IH k v Hv Hall')
        as (k1 & v1 & l1 & l2 & Hrun & Hk1 & Hsplit & Hge & Hl1 & Hl2).
      exists k1, v1, (best :: l1), l2.
      assert (better v1 bv) as Hb
        by (eapply no_worse_better; eauto).
      repeat split; auto.
      * simpl. now rewrite Hsplit.
      * intros k' v' [<- | Hin] Hk'; [| eauto].
        rewrite Hbest in Hk'. now injection Hk' as <-.
    + destruct (IH best bv Hbest Hall')
        as (k1 & v1 & l1 & l2 & Hrun & Hk1 & Hsplit & Hge & Hl1 & Hl2).
      destruct l1 as [| b l1].
      * simpl in Hsplit. injection Hsplit as <- <-.
        rewrite Hbest in Hk1. injection Hk1 as <-.
        exists best, bv, [], (k :: l).
        repeat split; auto; try contradiction.
        intros k' v' [<- | Hin] Hk'; [| eauto].
        rewrite Hv in Hk'. injection Hk' as <-. auto.
      * simpl in Hsplit. injection Hsplit as <- ->.
        exists k1, v1, (best :: k :: l1), l2.
        repeat split; auto.
        intros k' v' [<- | [<- | Hin]] Hk'.
        -- eapply Hl1; [now left | exact Hk'].
        -- rewrite Hv in Hk'. injection Hk' as <-.
           apply better_then_no_worse with bv; [| now apply op_false].
           eapply Hl1; [now left | exact Hbest].
        -- eapply Hl1; [right; exact Hin | exact Hk'].
Qed.

Lemma min_max_first l :
  l <> [] ->
  (forall k, In k l -> exists v, f k = Some v) ->
  exists k v l1 l2,
    min_max op f l = inr k /\
    f k = Some v /\
    l = l1 ++ k :: l2 /\
    (forall k' v', In k' l1 -> f k' = Some v' -> better v v') /\
    (forall k' v', In k' l2 -> f k' = Some v' -> no_worse v v').
Proof.
  intros Hne Hall. destruct l as [| k0 l]; [contradiction |].
  destruct (Hall k0 (or_introl eq_refl)) as [v0 Hv0].
  destruct (min_max_loop_first l k0 v0 Hv0)
    as (k & v & l1 & l2 & Hrun & Hk & Hsplit & _ & Hl1 & Hl2).
  { intros; apply Hall; now right. }
  exists k, v, l1, l2. simpl. rewrite Hv0. auto.
Qed.

(** Hence no item is better than the one returned. *)
Lemma min_max_optimal l k v :
  (forall k', In k' l -> exists v', f k' = Some v') ->
  min_max op f l = inr k -> f k = Some v ->
  forall k' v', In k' l -> f k' = Some v' -> no_worse v v'.
Proof.
  intros Hall Hrun Hk k' v' Hin Hk'.
  destruct (min_max_first l) as (k1 & v1 & l1 & l2 & Hrun1 & Hk1 & Hsplit
                                 & Hl1 & Hl2); auto.
  { intros ->. contradiction. }
  rewrite Hrun in Hrun1. injection Hrun1 as <-.
  rewrite Hk in Hk1. injection Hk1 as <-.
  rewrite Hsplit in Hin. apply in_app_or in Hin.
  destruct Hin as [Hin | [<- | Hin]]; eauto.
  rewrite Hk in Hk'. injection Hk' as <-. auto.
Qed.

End MinMaxLoop.

Module SelectorFacts.

Import Py.

Lemma keys_get {V} (d : dict V) k :
  In k (keys d) -> exists v, get d k = Some v.
Proof.
  induction d as [| [k0 v0] d IH]; simpl; [contradiction |].
  intros Hin. destruct (String.eqb_spec k0 k) as [-> | Hne]; [eauto |].
  destruct Hin as [-> | Hin]; [contradiction | auto].
Qed.


(** [max]: the keys before the selected one have a strictly smaller
    score, those after it have no greater score. *)
Lemma max_key_first (d : dict num) :
  d <> [] ->
  exists k v l1 l2,
    max_key d = inr k /\ get d k = Some v /\ keys d = l1 ++ k :: l2 /\
    (forall k' v', In k' l1 -> get d k' = Some v' -> (v' < v)%Q) /\
    (forall k' v', In k' l2 -> get d k' = Some v' -> (v' <= v)%Q).
Proof.
  intros Hne. unfold max_key.
  apply (min_max_first Qgtb (fun a b => (b < a)%Q) (fun a b => (b <= a)%Q)).
  - intros a b H. apply Qltb_lt. exact H.
  - intros a b H. apply Qltb_ge. exact H.
  - intros a. apply Qle_refl.
  - intros a b. apply Qlt_le_weak.
  - intros a b c Hab Hbc. eapply Qlt_le_trans; eauto.
  - intros a b c Hab Hbc. eapply Qle_lt_trans; eauto.
  - destruct d; [contradiction | discriminate].
  - intros k. apply keys_get.
Qed.

(** [min]: the keys before the selected one have a strictly greater
    score, those after it have no smaller score. *)
Lemma min_key_first (d : dict num) :
  d <> [] ->
  exists k v l1 l2,
    min_key d = inr k /\ get d k = Some v /\ keys d = l1 ++ k :: l2 /\
    (forall k' v', In k' l1 -> get d k' = Some v' -> (v < v')%Q) /\
    (forall k' v', In k' l2 -> get d k' = Some v' -> (v <= v')%Q).
Proof.
  intros Hne. unfold min_key.
  apply (min_max_first Qltb (fun a b => (a < b)%Q) (fun a b => (a <= b)%Q)).
  - intros a b H. apply Qltb_lt. exact H.
  - intros a b H. apply Qltb_ge. exact H.
  - intros a. apply Qle_refl.
  - intros a b. apply Qlt_le_weak.
  - intros a b c Hab Hbc. eapply Qle_lt_trans; eauto.
  - intros a b c Hab Hbc. eapply Qlt_le_trans; eauto.
  - destruct d; [contradiction | discriminate].
  - intros k. apply keys_get.
Qed.

End SelectorFacts.

Module TieFacts.

Import Py.








End TieFacts.





(** ** Cross-validation scoring *)

Lemma skipn_nth_error {A} (l : list A) a x :
  nth_error l a = Some x -> skipn a l = x :: skipn (S a) l.
Proof.
  revert l. induction a as [| a IH]; intros [| y l] H; try discriminate.
  - simpl in H. now injection H as ->.
  - simpl in H. apply IH in H. exact H.
Qed.

Section CrossValFacts.

Import Py Sklearn.

Context {world state : Type}.
Variable est : Estimator world state.
Variable X : list num.

Lemma scored_length w cv scores w' :
  scored est X w cv scores w' ->
  List.length scores = List.length cv.
Proof. induction 1; simpl; congruence. Qed.

Lemma fit_and_score_scored cv : forall w w' t scores,
  mapM (fit_and_score est X) cv w = (w', t, inr scores) ->
  scored est X w cv scores w'.
Proof.
  induction cv as [| fold cv IH]; intros w w' t scores H.
  - simpl in H. run_inv H. subst. constructor.
  - simpl in H. unfold fit_and_score in H. run_inv H. subst.
    econstructor; eauto.
Qed.

Lemma cross_val_score_ok w w' t scores :
  cross_val_score est X 10 w = (w', t, inr scores) ->
  fold_scores est X w scores w'.
Proof.
  intros H. unfold cross_val_score in H. run_inv H. subst.
  rename a into cv. exists cv.
  apply fit_and_score_scored in Hrest.
  pose proof (scored_length _ _ _ _ Hrest) as Hlen.
  pose proof (SplitFacts.TimeSeriesSplit_ok_inv _ _ _ Hstep) as [HK HN].
  assert (List.length cv = 10%nat) as Hcv.
  { rewrite SplitFacts.TimeSeriesSplit_folds in Hstep by assumption.
    injection Hstep as <-. reflexivity. }
  repeat split; auto. congruence.
Qed.

(** Cross-validation needs at least 11 values. *)
Lemma cross_val_score_needs_11 w w' t scores :
  cross_val_score est X 10 w = (w', t, inr scores) ->
  (11 <= List.length X)%nat.
Proof.
  intros H. unfold cross_val_score in H. run_inv H.
  apply SplitFacts.TimeSeriesSplit_ok_inv in Hstep. lia.
Qed.

Lemma take_seq a n :
  (a + n <= List.length X)%nat ->
  take X (seq a n) = inr (firstn n (skipn a X)).
Proof.
  revert a. induction n as [| n IH]; intros a Hle; [reflexivity |].
  simpl. destruct (nth_error X a) as [x |] eqn:Hx.
  - rewrite IH by lia. rewrite (skipn_nth_error _ _ _ Hx). reflexivity.
  - apply nth_error_None in Hx. lia.
Qed.

Lemma mapM_fit_and_score_runs cv :
  never_raises est ->
  Forall (fun fold => exists X_train X_test,
              take X (fst fold) = inr X_train /\
              take X (snd fold) = inr X_test) cv ->
  forall w, exists w' t scores,
    mapM (fit_and_score est X) cv w = (w', t, inr scores).
Proof.
  intros [Hfit Hscore]. induction 1 as [| fold cv Hfold _ IH]; intros w.
  - exists w, [], []. reflexivity.
  - destruct Hfold as (X_train & X_test & Htr & Hte).
    destruct (Hfit X_train w) as (w1 & st & Hf).
    destruct (Hscore st X_test w1) as (w2 & s & Hs).
    destruct (IH w2) as (w3 & t & scores & Hrun).
    do 3 eexists. simpl. eapply bind_step.
    + unfold fit_and_score, bind, lift, call.
      rewrite Htr, Hte, Hf, Hs. reflexivity.
    + eapply bind_step; [exact Hrun | reflexivity].
Qed.

Lemma cross_val_score_runs w :
  never_raises est -> (11 <= List.length X)%nat ->
  exists w' t scores,
    cross_val_score est X 10 w = (w', t, inr scores).
Proof.
  intros Hest HN. unfold cross_val_score.
  rewrite SplitFacts.TimeSeriesSplit_folds by lia.
  destruct (mapM_fit_and_score_runs
              (map (fun j => (seq 0 (origin 10 (List.length X) j),
                              seq (origin 10 (List.length X) j)
                                  (block 10 (List.length X))))
                   (seq 0 10)) Hest) with (w := w)
    as (w' & t & scores & Hrun).
  - apply Forall_forall. intros fold Hin. apply in_map_iff in Hin.
    destruct Hin as (j & <- & Hj). apply in_seq in Hj.
    pose proof (SplitFacts.origin_end 10 (List.length X) j ltac:(lia)).
    simpl fst. simpl snd. rewrite !take_seq by lia. eauto.
  - exists w', t, scores. unfold bind, lift. rewrite Hrun.
    reflexivity.
Qed.

End CrossValFacts.

(** ** The constructors *)

Section CrossValidationInit.

Import Py Sklearn.

Context {world state : Type}.
Variables e1 e2 e3 e4 e5 : Estimator world state.

Local Open Scope string_scope.

(** What a successful scoring pass of the cross-validation path
    computed. *)
Lemma cv_score_mapping_ok X w w' t score :
  EnsembleCrossValidation.score_mapping e1 e2 e3 e4 e5 X w
    = (w', t, inr score) ->
  exists s1 s2 s3 s4 s5 w1 w2 w3 w4,
    score = [("naive", mean s1); ("ar", mean s2); ("arma", mean s3);
             ("arima", mean s4); ("ets", mean s5)] /\
    fold_scores e1 X w s1 w1 /\ fold_scores e2 X w1 s2 w2 /\
    fold_scores e3 X w2 s3 w3 /\ fold_scores e4 X w3 s4 w4 /\
    fold_scores e5 X w4 s5 w'.
Proof.
  intros H. unfold EnsembleCrossValidation.score_mapping in H.
  run_inv H.
  repeat match goal with
         | Hc : cross_val_score _ _ _ _ = _ |- _ =>
             apply cross_val_score_ok in Hc
         end.
  subst. do 9 eexists. split; [reflexivity |]. repeat split; eassumption.
Qed.

Lemma cv_score_mapping_runs X w :
  never_raises e1 -> never_raises e2 -> never_raises e3 ->
  never_raises e4 -> never_raises e5 ->
  (11 <= List.length X)%nat ->
  exists w' t score,
    EnsembleCrossValidation.score_mapping e1 e2 e3 e4 e5 X w
      = (w', t, inr score).
Proof.
  intros H1 H2 H3 H4 H5 HN.
  destruct (cross_val_score_runs e1 X w H1 HN) as (w1 & t1 & s1 & R1).
  destruct (cross_val_score_runs e2 X w1 H2 HN) as (w2 & t2 & s2 & R2).
  destruct (cross_val_score_runs e3 X w2 H3 HN) as (w3 & t3 & s3 & R3).
  destruct (cross_val_score_runs e4 X w3 H4 HN) as (w4 & t4 & s4 & R4).
  destruct (cross_val_score_runs e5 X w4 H5 HN) as (w5 & t5 & s5 & R5).
  do 3 eexists. unfold EnsembleCrossValidation.score_mapping.
  repeat (eapply bind_step; [eassumption |]). reflexivity.
Qed.

Lemma cv_score_mapping_needs_11 X w w' t score :
  EnsembleCrossValidation.score_mapping e1 e2 e3 e4 e5 X w
    = (w', t, inr score) ->
  (11 <= List.length X)%nat.
Proof.
  intros H. unfold EnsembleCrossValidation.score_mapping in H.
  apply bind_ok in H. destruct H as (w1 & t1 & a & t2 & H & _).
  eapply cross_val_score_needs_11; eauto.
Qed.

(** What a successful construction established. *)
Lemma cv_init_ok series T w w' t o :
  EnsembleCrossValidation.__init__ e1 e2 e3 e4 e5 series T w
    = (w', t, inr o) ->
  0 < T /\
  EnsembleCrossValidation.series o = series /\
  EnsembleCrossValidation.test_size o = T /\
  EnsembleCrossValidation.test_series o = slice_from series (- T) /\
  exists t' score,
    EnsembleCrossValidation.score_mapping e1 e2 e3 e4 e5
      (slice_to series (- T)) w = (w', t', inr score) /\
    EnsembleCrossValidation.select score
      = inr (EnsembleCrossValidation.best_algo o).
Proof.
  unfold EnsembleCrossValidation.__init__.
  destruct (Z.leb_spec T 0) as [Hle | Hlt]; [discriminate |].
  intros H. run_inv H. subst. simpl. repeat split; auto.
  do 2 eexists. split; eassumption.
Qed.

(** A constructed instance holds a test window of exactly [test_size]
    values, the last ones of the series. *)
Lemma cv_init_test_window series T w w' t o :
  EnsembleCrossValidation.__init__ e1 e2 e3 e4 e5 series T w
    = (w', t, inr o) ->
  0 < T /\ T + 11 <= len series /\
  EnsembleCrossValidation.test_size o = T /\
  len (EnsembleCrossValidation.test_series o) = T /\
  EnsembleCrossValidation.test_series o
    = skipn (List.length series - Z.to_nat T) series.
Proof.
  intros H. apply cv_init_ok in H.
  destruct H as (HT & _ & Hsize & Htest & t' & score & Hscore & _).
  apply cv_score_mapping_needs_11 in Hscore.
  assert (11 <= len (slice_to series (- T))) as H11
    by (unfold len; lia).
  rewrite len_slice_to_neg in H11 by assumption.
  rewrite Htest, len_slice_from_neg by assumption.
  unfold slice_from. rewrite slice_bound_neg by assumption.
  repeat split; auto; lia.
Qed.

End CrossValidationInit.

Section BaggingInit.

Import Py Sklearn.

Context {world state : Type}.
Variables e1 e2 e3 e4 e5 : Estimator world state.

Local Open Scope string_scope.

Lemma bag_score_mapping_ok X w w' t score :
  EnsembleBagging.score_mapping e1 e2 e3 e4 e5 X w = (w', t, inr score) ->
  exists s1 s2 s3 s4 s5 w1 w2 w3 w4,
    score = [("naive", mean s1); ("ar", mean s2); ("arma", mean s3);
             ("arima", mean s4); ("ets", mean s5)] /\
    fold_scores e1 X w s1 w1 /\ fold_scores e2 X w1 s2 w2 /\
    fold_scores e3 X w2 s3 w3 /\ fold_scores e4 X w3 s4 w4 /\
    fold_scores e5 X w4 s5 w'.
Proof.
  intros H. unfold EnsembleBagging.score_mapping in H.
  run_inv H.
  repeat match goal with
         | Hc : cross_val_score _ _ _ _ = _ |- _ =>
             apply cross_val_score_ok in Hc
         end.
  subst. do 9 eexists. split; [reflexivity |]. repeat split; eassumption.
Qed.

Lemma bag_score_mapping_runs X w :
  never_raises e1 -> never_raises e2 -> never_raises e3 ->
  never_raises e4 -> never_raises e5 ->
  (11 <= List.length X)%nat ->
  exists w' t score,
    EnsembleBagging.score_mapping e1 e2 e3 e4 e5 X w = (w', t, inr score).
Proof.
  intros H1 H2 H3 H4 H5 HN.
  destruct (cross_val_score_runs e1 X w H1 HN) as (w1 & t1 & s1 & R1).
  destruct (cross_val_score_runs e2 X w1 H2 HN) as (w2 & t2 & s2 & R2).
  destruct (cross_val_score_runs e3 X w2 H3 HN) as (w3 & t3 & s3 & R3).
  destruct (cross_val_score_runs e4 X w3 H4 HN) as (w4 & t4 & s4 & R4).
  destruct (cross_val_score_runs e5 X w4 H5 HN) as (w5 & t5 & s5 & R5).
  do 3 eexists. unfold EnsembleBagging.score_mapping.
  repeat (eapply bind_step; [reflexivity |];
          eapply bind_step; [eassumption |]).
  reflexivity.
Qed.

Lemma bag_init_ok series T w w' t o :
  EnsembleBagging.__init__ e1 e2 e3 e4 e5 series T w = (w', t, inr o) ->
  0 < T /\
  len (slice_from series (- T)) = T /\
  len (slice_from series (- T)) + len (slice_to series (- T))
    = len series /\
  EnsembleBagging.series o = series /\
  EnsembleBagging.test_size o = T /\
  EnsembleBagging.eval_series o = slice_to series (- T) /\
  EnsembleBagging.test_series o = slice_from series (- T) /\
  exists t' score,
    EnsembleBagging.score_mapping e1 e2 e3 e4 e5
      (slice_to series (- T)) w = (w', t', inr score) /\
    EnsembleBagging.select score = inr (EnsembleBagging.best_algo o).
Proof.
  unfold EnsembleBagging.__init__.
  destruct (Z.leb_spec T 0) as [Hle | Hlt]; [discriminate |].
  intros H. run_inv H. subst. simpl.
  apply Z.eqb_eq in Hstep, Hstep0.
  repeat split; auto. do 2 eexists. split; eassumption.
Qed.

End BaggingInit.

(** ** The walk-forward runners *)

Lemma forecasts_app t1 t2 : forecasts (t1 ++ t2) = forecasts t1 ++ forecasts t2.
Proof. apply flat_map_app. Qed.

Lemma fits_app t1 t2 : fits (t1 ++ t2) = fits t1 ++ fits t2.
Proof. apply flat_map_app. Qed.

Section CrossValidationRun.

Import Py.

Context {world : Type}.
Variable algo : ForecastAlgorithms world.

(** A successful loop made one forecast call per index, each on the test
    series from that index on, and appended its result. *)
Lemma walk_loop_ok algo_name
      (forecast : list num -> world -> world * (exn + num)) o l :
  forall results w w' t r,
  foldM (EnsembleCrossValidation.step algo_name forecast o) results l w
    = (w', t, inr r) ->
  exists xs,
    r = results ++ xs /\
    t = map (fun i => Forecast algo_name
                        (slice_from (EnsembleCrossValidation.test_series o)
                                    i)) l /\
    Forall2 (fun i x => exists wa wb,
                 forecast (slice_from
                             (EnsembleCrossValidation.test_series o) i) wa
                   = (wb, inr x)) l xs.
Proof.
  induction l as [| i l IH]; intros results w w' t r H.
  - simpl in H. run_inv H. subst. exists []. rewrite app_nil_r. auto.
  - simpl in H. apply bind_ok in H.
    destruct H as (w1 & t1 & a & t2 & Hstep & Hrest & ->).
    unfold EnsembleCrossValidation.step in Hstep. run_inv Hstep. subst.
    apply IH in Hrest. destruct Hrest as (xs & -> & -> & Hall).
    rename a0 into x. exists (x :: xs). rewrite <- app_assoc. simpl.
    repeat split; auto. constructor; eauto.
Qed.

Lemma forecasts_walk algo_name o l :
  forecasts (map (fun i => Forecast algo_name
                    (slice_from (EnsembleCrossValidation.test_series o) i))
                 l) =
    map (fun i => (algo_name,
                   slice_from (EnsembleCrossValidation.test_series o) i)) l.
Proof. induction l; simpl; congruence. Qed.

(** One branch of [run_test]. *)
Lemma branch_ok msg algo_name
      (forecast : list num -> world -> world * (exn + num)) o w w' t r :
  bind (tell (Warn msg))
       (fun _ => EnsembleCrossValidation.walk algo_name forecast o []) w
    = (w', t, inr r) ->
  forecasts t =
    map (fun i => (algo_name,
                   slice_from (EnsembleCrossValidation.test_series o) i))
        (range (EnsembleCrossValidation.test_size o)) /\
  Forall2 (fun i x => exists wa wb,
               forecast (slice_from
                           (EnsembleCrossValidation.test_series o) i) wa
                 = (wb, inr x))
          (range (EnsembleCrossValidation.test_size o)) r.
Proof.
  intros H. apply bind_ok in H.
  destruct H as (w1 & t1 & u & t2 & Htell & Hwalk & ->).
  apply tell_ok in Htell. destruct Htell as [-> ->].
  unfold EnsembleCrossValidation.walk in Hwalk.
  apply walk_loop_ok in Hwalk. destruct Hwalk as (xs & -> & -> & Hall).
  simpl. split; [apply forecasts_walk | exact Hall].
Qed.

Lemma run_test_ok o w w' t results :
  EnsembleCrossValidation.run_test algo o w = (w', t, inr results) ->
  exists forecast,
    forecast_of algo (EnsembleCrossValidation.best_algo o) = Some forecast /\
    forecasts t =
      map (fun i => (EnsembleCrossValidation.best_algo o,
                     slice_from (EnsembleCrossValidation.test_series o) i))
          (range (EnsembleCrossValidation.test_size o)) /\
    Forall2 (fun i x => exists wa wb,
                 forecast (slice_from
                             (EnsembleCrossValidation.test_series o) i) wa
                   = (wb, inr x))
            (range (EnsembleCrossValidation.test_size o)) results.
Proof.
  unfold EnsembleCrossValidation.run_test, forecast_of. intros H.
  apply bind_ok in H. destruct H as (w1 & t1 & r & t2 & H & Hcsv & ->).
  run_inv Hcsv. subst. rewrite forecasts_app, app_nil_r.
  destruct (String.eqb_spec (EnsembleCrossValidation.best_algo o) "naive")
    as [-> | _]; [eexists; split; [reflexivity | eapply branch_ok, H] |].
  destruct (String.eqb_spec (EnsembleCrossValidation.best_algo o) "ar")
    as [-> | _]; [eexists; split; [reflexivity | eapply branch_ok, H] |].
  destruct (String.eqb_spec (EnsembleCrossValidation.best_algo o) "arma")
    as [-> | _]; [eexists; split; [reflexivity | eapply branch_ok, H] |].
  destruct (String.eqb_spec (EnsembleCrossValidation.best_algo o) "arima")
    as [-> | _]; [eexists; split; [reflexivity | eapply branch_ok, H] |].
  destruct (String.eqb_spec (EnsembleCrossValidation.best_algo o) "ets")
    as [-> | _]; [eexists; split; [reflexivity | eapply branch_ok, H] |].
  discriminate H.
Qed.

End CrossValidationRun.

Lemma Forall2_nth_error_l {A B} (R : A -> B -> Prop) l1 l2 i a :
  Forall2 R l1 l2 -> nth_error l1 i = Some a ->
  exists b, nth_error l2 i = Some b /\ R a b.
Proof.
  intros H. revert i. induction H as [| x y l1 l2 Hxy _ IH]; intros [| i];
    simpl; try discriminate.
  - intros E. injection E as <-. eauto.
  - apply IH.
Qed.


Lemma nth_error_range T i :
  (i < Z.to_nat T)%nat -> nth_error (Py.range T) i = Some (Z.of_nat i).
Proof.
  intros H. unfold Py.range. rewrite nth_error_map, nth_error_seq.
  destruct (Nat.ltb_spec i (Z.to_nat T)); [reflexivity | lia].
Qed.

Lemma length_range T : List.length (Py.range T) = Z.to_nat T.
Proof. unfold Py.range. now rewrite length_map, length_seq. Qed.

(** C1 (as amended): in the cross-validation path, for every selected
    strategy and every step [i] of the test window, [run_test] obtains
    the forecast for test index [i] from one call of the strategy's
    one-step forecast on [test_series[i:]], the values of the series from
    test index [i] to its end: the evaluation series and the test values
    before index [i] are not passed to it. *)
Theorem walk_forward_reads_test_suffix
        {world state : Type} (e1 e2 e3 e4 e5 : Estimator world state)
        (algo : ForecastAlgorithms world)
        (series : list num) (T : Z) w w1 t1 o w2 t2 results :
  EnsembleCrossValidation.__init__ e1 e2 e3 e4 e5 series T w
    = (w1, t1, inr o) ->
  EnsembleCrossValidation.run_test algo o w1 = (w2, t2, inr results) ->
  exists forecast,
    forecast_of algo (EnsembleCrossValidation.best_algo o)
      = Some forecast /\
    forall i, (i < Z.to_nat T)%nat ->
      let data := skipn (List.length series - Z.to_nat T + i) series in
      nth_error (forecasts t2) i
        = Some (EnsembleCrossValidation.best_algo o, data) /\
      exists x wa wb,
        nth_error results i = Some x /\ forecast data wa = (wb, inr x).
Proof.
  intros Hinit Hrun.
  apply cv_init_test_window in Hinit.
  destruct Hinit as (HT & HN & Hsize & Hlen & Htest).
  apply run_test_ok in Hrun.
  destruct Hrun as (forecast & Hf & Hcalls & Hall).
  exists forecast. split; [exact Hf |]. intros i Hi data.
  rewrite Hsize in *.
  assert (Py.slice_from (EnsembleCrossValidation.test_series o)
                        (Z.of_nat i) = data) as Hdata.
  { unfold Py.slice_from. rewrite slice_bound_pos by (unfold Py.len in Hlen; lia).
    rewrite Htest, skipn_skipn. unfold data. f_equal. lia. }
  split.
  - rewrite Hcalls, nth_error_map, nth_error_range by assumption.
    simpl. now rewrite Hdata.
  - destruct (Forall2_nth_error_l _ _ _ i _ Hall (nth_error_range T i Hi))
      as (x & Hx & wa & wb & Hcall).
    rewrite Hdata in Hcall. eauto.
Qed.


Lemma walk_forward_reads_test_suffix_witness :
  Demo.init_a
    = (fst (fst Demo.init_a), snd (fst Demo.init_a), inr Demo.o_a) /\
  Demo.run_a
    = (fst (fst Demo.run_a), snd (fst Demo.run_a), inr [30#1; 30#1]) /\
  exists forecast,
    forecast_of Demo.algo (EnsembleCrossValidation.best_algo Demo.o_a)
      = Some forecast /\
    forall i, (i < Z.to_nat 2)%nat ->
      let data :=
        skipn (List.length Demo.series_a - Z.to_nat 2 + i) Demo.series_a in
      nth_error (forecasts (snd (fst Demo.run_a))) i
        = Some (EnsembleCrossValidation.best_algo Demo.o_a, data) /\
      exists x wa wb,
        nth_error [30#1; 30#1] i = Some x /\ forecast data wa = (wb, inr x).
Proof.
  assert (Hinit : Demo.init_a
            = (fst (fst Demo.init_a), snd (fst Demo.init_a), inr Demo.o_a))
    by (vm_compute; reflexivity).
  assert (Hrun : Demo.run_a
            = (fst (fst Demo.run_a), snd (fst Demo.run_a),
               inr [30#1; 30#1]))
    by (vm_compute; reflexivity).
  split; [exact Hinit |]. split; [exact Hrun |].
  exact (walk_forward_reads_test_suffix _ _ _ _ _ _ _ _ _ _ _ _ _ _ _
           Hinit Hrun).
Defined.

(** The claim as stated fails: [Demo.series_a] and [Demo.series_b] have
    the same 11 values before the test window of 2 (and the same first
    test value), so a forecast for test index 0 made from the history
    before it would be the same for both, 11 for the naive strategy; the
    runs forecast 30 and 40, the last value of each test window. *)
Lemma walk_forward_reads_later_test_values :
  List.length Demo.series_a = List.length Demo.series_b /\
  firstn (13 - 2 + 0) Demo.series_a = firstn (13 - 2 + 0) Demo.series_b /\
  Demo.last_observed (firstn (13 - 2 + 0) Demo.series_a) = inr (11#1) /\
  exists ra rb,
    snd (Demo.cross_validation Demo.series_a 2) = inr ra /\
    snd (Demo.cross_validation Demo.series_b 2) = inr rb /\
    nth_error ra 0 = Some (30#1) /\
    nth_error rb 0 = Some (40#1) /\
    nth_error ra 0 <> nth_error rb 0 /\
    nth_error ra 0 <> Some (11#1).
Proof.
  split; [reflexivity |]. split; [reflexivity |]. split; [reflexivity |].
  exists [30#1; 30#1], [40#1; 40#1].
  repeat split; try (vm_compute; reflexivity); simpl; discriminate.
Qed.

Section BaggingRun.

Import Py.

Context {world state : Type}.
Variables e1 e2 e3 e4 e5 : Estimator world state.

Lemma bind_cases {A B} (m : M world A) (f : A -> M world B) w w' t r :
  bind m f w = (w', t, r) ->
  (exists e, m w = (w', t, inl e) /\ r = inl e) \/
  (exists w1 t1 a t2,
      m w = (w1, t1, inr a) /\ f a w1 = (w', t2, r) /\ t = t1 ++ t2).
Proof.
  unfold bind. destruct (m w) as [[w1 t1] [e | a]].
  - intros H. injection H as <- <- <-. left. exists e. auto.
  - destruct (f a w1) as [[w2 t2] r2] eqn:Hf. intros H.
    injection H as <- <- <-. right. exists w1, t1, a, t2. auto.
Qed.

Lemma call_cases {A} ev (f : world -> world * (exn + A)) w w' t r :
  call ev f w = (w', t, r) -> f w = (w', r) /\ t = [ev].
Proof.
  unfold call. destruct (f w) as [w1 r1]. intros H.
  injection H as <- <- <-. auto.
Qed.

(** Assigning the estimator logs one line and fits nothing. *)
Lemma assign_estimator_cases o w w' t r :
  EnsembleBagging.assign_estimator e1 e2 e3 e4 e5 o w = (w', t, r) ->
  w' = w /\ fits t = [] /\
  match estimator_of e1 e2 e3 e4 e5 (EnsembleBagging.best_algo o) with
  | Some est => r = inr est
  | None => r = inl AssertionError
  end.
Proof.
  unfold EnsembleBagging.assign_estimator, estimator_of.
  repeat match goal with
         | |- context [ (?a =? ?b)%string ] => destruct (a =? b)%string
         end;
    intros H; injection H as <- <- <-; auto.
Qed.

(** Every run of the bagging [run_test] with an assigned estimator calls
    [fit] once, on the evaluation series; a run that returns predicted the
    whole test series from the state of that fit. *)
Lemma bag_run_test_cases o est w w' t r :
  estimator_of e1 e2 e3 e4 e5 (EnsembleBagging.best_algo o) = Some est ->
  EnsembleBagging.run_test e1 e2 e3 e4 e5 o w = (w', t, r) ->
  fits t = [EnsembleBagging.eval_series o] /\
  forall results,
    r = inr results ->
    exists st wa wb s,
      fit est (EnsembleBagging.eval_series o) w = (wa, inr st) /\
      predict est st (EnsembleBagging.test_series o) wa
        = (wb, inr results) /\
      score est st (EnsembleBagging.test_series o) wb = (w', inr s) /\
      In (ToCsv (Some (EnsembleBagging.test_series o)) results) t.
Proof.
  intros Hest H. unfold EnsembleBagging.run_test in H.
  apply bind_cases in H.
  destruct H as [(e & Hm & ->) | (w1 & t1 & a & t2 & Hm & H & ->)];
    apply assign_estimator_cases in Hm; rewrite Hest in Hm;
    destruct Hm as (-> & Ht1 & Ha); [discriminate Ha |].
  injection Ha as ->. rewrite fits_app, Ht1. simpl.
  apply bind_cases in H.
  destruct H as [(e & Hm & ->) | (wa & ta & st & t3 & Hm & H & ->)];
    apply call_cases in Hm; destruct Hm as [Hfit ->];
    [split; [reflexivity | discriminate] |].
  apply bind_cases in H.
  destruct H as [(e & Hm & ->) | (wb & tb & results & t4 & Hm & H & ->)];
    apply call_cases in Hm; destruct Hm as [Hpred ->];
    [split; [reflexivity | discriminate] |].
  apply bind_cases in H.
  destruct H as [(e & Hm & ->) | (wc & tc & s & t5 & Hm & H & ->)];
    apply call_cases in Hm; destruct Hm as [Hscore ->];
    [split; [reflexivity | discriminate] |].
  unfold bind, tell, ret in H. injection H as <- <- <-.
  split; [reflexivity |]. intros results' E. injection E as <-.
  exists st, wa, wb, s. repeat split; auto.
  apply in_or_app. right. simpl. auto 10.
Qed.

End BaggingRun.

(** The selected identifier is one of the five strategies. *)
Lemma select_in_enumeration (score : Py.dict num) k :
  Py.keys score = enumeration ->
  EnsembleBagging.select score = inr k \/
  EnsembleCrossValidation.select score = inr k ->
  In k enumeration.
Proof.
  intros Hkeys Hsel.
  assert (Hne : score <> []) by (intros ->; discriminate Hkeys).
  destruct (SelectorFacts.min_key_first score Hne)
    as (k1 & v1 & l1 & l2 & Hmin & _ & Hsplit1 & _).
  destruct (SelectorFacts.max_key_first score Hne)
    as (k2 & v2 & m1 & m2 & Hmax & _ & Hsplit2 & _).
  rewrite <- Hkeys.
  destruct Hsel as [Hsel | Hsel].
  - unfold EnsembleBagging.select in Hsel. rewrite Hmin in Hsel.
    injection Hsel as <-. rewrite Hsplit1. apply in_elt.
  - unfold EnsembleCrossValidation.select in Hsel. rewrite Hmax in Hsel.
    injection Hsel as <-. rewrite Hsplit2. apply in_elt.
Qed.

Lemma estimator_of_enumeration {world state}
      (e1 e2 e3 e4 e5 : Estimator world state) k :
  In k enumeration ->
  exists est, estimator_of e1 e2 e3 e4 e5 k = Some est /\
              In est [e1; e2; e3; e4; e5].
Proof.
  unfold enumeration. simpl.
  intros [<- | [<- | [<- | [<- | [<- | []]]]]]; eexists;
    (split; [reflexivity | simpl; auto 10]).
Qed.

Lemma bag_init_estimator {world state}
      (e1 e2 e3 e4 e5 : Estimator world state) series T w w' t o :
  EnsembleBagging.__init__ e1 e2 e3 e4 e5 series T w = (w', t, inr o) ->
  exists est,
    estimator_of e1 e2 e3 e4 e5 (EnsembleBagging.best_algo o) = Some est /\
    In est [e1; e2; e3; e4; e5].
Proof.
  intros H. apply bag_init_ok in H.
  destruct H as (_ & _ & _ & _ & _ & _ & _ & t' & score & Hscore & Hsel).
  apply bag_score_mapping_ok in Hscore.
  destruct Hscore as (s1 & s2 & s3 & s4 & s5 & w1 & w2 & w3 & w4 & -> & _).
  apply estimator_of_enumeration.
  eapply select_in_enumeration; [| left; exact Hsel]. reflexivity.
Qed.




Lemma demo_init_a :
  Demo.init_a
    = (fst (fst Demo.init_a), snd (fst Demo.init_a), inr Demo.o_a).
Proof. vm_compute. reflexivity. Qed.

Lemma demo_run_a :
  Demo.run_a
    = (fst (fst Demo.run_a), snd (fst Demo.run_a), inr [30#1; 30#1]).
Proof. vm_compute. reflexivity. Qed.

Lemma demo_bag_init_a :
  Demo.bag_init_a
    = (fst (fst Demo.bag_init_a), snd (fst Demo.bag_init_a),
       inr Demo.bag_o_a).
Proof. vm_compute. reflexivity. Qed.

Lemma demo_bag_run_a :
  Demo.bag_run_a
    = (fst (fst Demo.bag_run_a), snd (fst Demo.bag_run_a),
       inr [11#1; 11#1]).
Proof. vm_compute. reflexivity. Qed.


(** C7: with a test-window length [test_size <= 0] both constructors raise
    [ValueError], and they do so with an empty log: no estimator was fit
    or scored, and no split was made. *)
Theorem nonpositive_test_size_rejected
        {world state : Type} (e1 e2 e3 e4 e5 : Estimator world state)
        (series : list num) (T : Z) (w : world) :
  T <= 0 ->
  EnsembleCrossValidation.__init__ e1 e2 e3 e4 e5 series T w
    = (w, [], inl ValueError) /\
  EnsembleBagging.__init__ e1 e2 e3 e4 e5 series T w
    = (w, [], inl ValueError).
Proof.
  intros HT.
  unfold EnsembleCrossValidation.__init__, EnsembleBagging.__init__.
  destruct (Z.leb_spec T 0); [split; reflexivity | lia].
Qed.

Lemma nonpositive_test_size_rejected_witness :
  0 <= 0 /\
  EnsembleCrossValidation.__init__
    Demo.NaiveEstimator Demo.ArEstimator Demo.ArmaEstimator
    Demo.ArimaEstimator Demo.EtsEstimator Demo.series_a 0 0%nat
    = (0%nat, [], inl ValueError) /\
  EnsembleBagging.__init__
    Demo.NaiveEstimator Demo.ArEstimator Demo.ArmaEstimator
    Demo.ArimaEstimator Demo.EtsEstimator Demo.series_a 0 0%nat
    = (0%nat, [], inl ValueError).
Proof.
  split; [lia |].
  apply (nonpositive_test_size_rejected
           Demo.NaiveEstimator Demo.ArEstimator Demo.ArmaEstimator
           Demo.ArimaEstimator Demo.EtsEstimator Demo.series_a 0 0%nat).
  lia.
Defined.

(** C10: in the bagging constructor no length assertion fails for a
    series of length [N >= test_size]: a non-positive [test_size] was
    rejected before them, and otherwise both conditions are true and the
    constructor goes on to its first log line; for [N < test_size] the
    first assertion fails and the constructor raises [AssertionError] with
    an empty log, before any scoring. *)
Theorem bagging_length_assertions
        {world state : Type} (e1 e2 e3 e4 e5 : Estimator world state)
        (series : list num) (T : Z) (w : world) :
  (T <= Py.len series ->
   (T <= 0 /\
    EnsembleBagging.__init__ e1 e2 e3 e4 e5 series T w
      = (w, [], inl ValueError)) \/
   (0 < T /\
    (Py.len (Py.slice_from series (- T)) =? T) = true /\
    (Py.len (Py.slice_from series (- T))
     + Py.len (Py.slice_to series (- T)) =? Py.len series) = true /\
    exists w' t r,
      EnsembleBagging.__init__ e1 e2 e3 e4 e5 series T w
        = (w', Warn "Deciding best algorithm..." :: t, r))) /\
  (Py.len series < T ->
   (Py.len (Py.slice_from series (- T)) =? T) = false /\
   EnsembleBagging.__init__ e1 e2 e3 e4 e5 series T w
     = (w, [], inl AssertionError)).
Proof.
  split.
  - intros HN. destruct (Z.leb_spec T 0) as [HT | HT].
    + left. split; [exact HT |].
      now apply nonpositive_test_size_rejected.
    + right. split; [exact HT |].
      assert ((Py.len (Py.slice_from series (- T)) =? T) = true) as H1.
      { apply Z.eqb_eq. rewrite len_slice_from_neg by assumption. lia. }
      assert ((Py.len (Py.slice_from series (- T))
               + Py.len (Py.slice_to series (- T)) =? Py.len series) = true)
        as H2.
      { apply Z.eqb_eq.
        rewrite len_slice_from_neg, len_slice_to_neg by assumption. lia. }
      split; [exact H1 |]. split; [exact H2 |].
      unfold EnsembleBagging.__init__.
      destruct (Z.leb_spec T 0); [lia |].
      rewrite H1, H2. unfold assert, bind, ret, tell, lift.
      destruct (EnsembleBagging.score_mapping _ _ _ _ _ _ _)
        as [[w1 t1] [e | score]]; simpl; [eauto |].
      destruct (EnsembleBagging.select score) as [e | best]; simpl; eauto.
  - intros HN.
    assert ((Py.len (Py.slice_from series (- T)) =? T) = false) as H1.
    { apply Z.eqb_neq. unfold Py.len in HN.
      rewrite len_slice_from_neg by lia. unfold Py.len. lia. }
    split; [exact H1 |].
    unfold EnsembleBagging.__init__.
    destruct (Z.leb_spec T 0); [unfold Py.len in HN; lia |].
    rewrite H1. reflexivity.
Qed.

Lemma bagging_length_assertions_witness :
  (2 <= Py.len Demo.series_a /\
   exists w' t r,
     EnsembleBagging.__init__
       Demo.NaiveEstimator Demo.ArEstimator Demo.ArmaEstimator
       Demo.ArimaEstimator Demo.EtsEstimator Demo.series_a 2 0%nat
       = (w', Warn "Deciding best algorithm..." :: t, r)) /\
  (Py.len Demo.series_a < 14 /\
   EnsembleBagging.__init__
     Demo.NaiveEstimator Demo.ArEstimator Demo.ArmaEstimator
     Demo.ArimaEstimator Demo.EtsEstimator Demo.series_a 14 0%nat
     = (0%nat, [], inl AssertionError)).
Proof.
  split.
  - assert (2 <= Py.len Demo.series_a) as H by (vm_compute; discriminate).
    split; [exact H |].
    destruct (proj1 (bagging_length_assertions
                       Demo.NaiveEstimator Demo.ArEstimator
                       Demo.ArmaEstimator Demo.ArimaEstimator
                       Demo.EtsEstimator Demo.series_a 2 0%nat) H)
      as [[Hle _] | (_ & _ & _ & Hrun)]; [lia | exact Hrun].
  - assert (Py.len Demo.series_a < 14) as H by (vm_compute; reflexivity).
    split; [exact H |].
    apply (bagging_length_assertions
             Demo.NaiveEstimator Demo.ArEstimator Demo.ArmaEstimator
             Demo.ArimaEstimator Demo.EtsEstimator Demo.series_a 14 0%nat).
    exact H.
Defined.

(** C9: model selection never reads the test window: for two series of
    the same length that agree on the first [N - test_size] values, the
    evaluation series are the same, so the score mappings computed from
    them are the same, and both constructors leave the same ambient state
    and log and select the same [best_algo] (or raise the same
    exception). *)
Theorem selection_ignores_test_window
        {world state : Type} (e1 e2 e3 e4 e5 : Estimator world state)
        (s1 s2 : list num) (T : Z) (w : world) :
  List.length s1 = List.length s2 ->
  firstn (List.length s1 - Z.to_nat T) s1
    = firstn (List.length s2 - Z.to_nat T) s2 ->
  (0 < T ->
   Py.slice_to s1 (- T) = Py.slice_to s2 (- T) /\
   EnsembleCrossValidation.score_mapping e1 e2 e3 e4 e5
     (Py.slice_to s1 (- T)) w
   = EnsembleCrossValidation.score_mapping e1 e2 e3 e4 e5
       (Py.slice_to s2 (- T)) w /\
   EnsembleBagging.score_mapping e1 e2 e3 e4 e5 (Py.slice_to s1 (- T)) w
   = EnsembleBagging.score_mapping e1 e2 e3 e4 e5
       (Py.slice_to s2 (- T)) w) /\
  cv_selected (EnsembleCrossValidation.__init__ e1 e2 e3 e4 e5 s1 T w)
  = cv_selected (EnsembleCrossValidation.__init__ e1 e2 e3 e4 e5 s2 T w) /\
  bag_selected (EnsembleBagging.__init__ e1 e2 e3 e4 e5 s1 T w)
  = bag_selected (EnsembleBagging.__init__ e1 e2 e3 e4 e5 s2 T w).
Proof.
  intros Hlen Hprefix.
  assert (0 < T -> Py.slice_to s1 (- T) = Py.slice_to s2 (- T)) as Heval.
  { intros HT. unfold Py.slice_to.
    now rewrite !slice_bound_neg by assumption. }
  split; [intros HT; rewrite (Heval HT); auto |].
  unfold EnsembleCrossValidation.__init__, EnsembleBagging.__init__.
  destruct (Z.leb_spec T 0) as [HT | HT]; [split; reflexivity |].
  rewrite (Heval HT). split.
  - unfold bind, tell, lift, ret. simpl.
    destruct (EnsembleCrossValidation.score_mapping _ _ _ _ _ _ _)
      as [[w1 t1] [e | score]]; simpl; [reflexivity |].
    destruct (EnsembleCrossValidation.select score) as [e | best];
      reflexivity.
  - assert (Py.len (Py.slice_from s1 (- T))
            = Py.len (Py.slice_from s2 (- T))) as Htest.
    { rewrite !len_slice_from_neg by assumption. unfold Py.len. lia. }
    assert (Py.len s1 = Py.len s2) as Hlen' by (unfold Py.len; lia).
    rewrite Htest, Hlen'.
    unfold bind, tell, lift, ret, assert.
    destruct (Py.len (Py.slice_from s2 (- T)) =? T); [| reflexivity].
    destruct (Py.len (Py.slice_from s2 (- T))
              + Py.len (Py.slice_to s2 (- T)) =? Py.len s2);
      [| reflexivity].
    simpl.
    destruct (EnsembleBagging.score_mapping _ _ _ _ _ _ _)
      as [[w1 t1] [e | score]]; simpl; [reflexivity |].
    destruct (EnsembleBagging.select score) as [e | best]; reflexivity.
Qed.

Lemma selection_ignores_test_window_witness :
  List.length Demo.series_a = List.length Demo.series_b /\
  firstn (List.length Demo.series_a - Z.to_nat 2) Demo.series_a
    = firstn (List.length Demo.series_b - Z.to_nat 2) Demo.series_b /\
  cv_selected (EnsembleCrossValidation.__init__
                 Demo.NaiveEstimator Demo.ArEstimator Demo.ArmaEstimator
                 Demo.ArimaEstimator Demo.EtsEstimator
                 Demo.series_a 2 0%nat)
  = cv_selected (EnsembleCrossValidation.__init__
                   Demo.NaiveEstimator Demo.ArEstimator Demo.ArmaEstimator
                   Demo.ArimaEstimator Demo.EtsEstimator
                   Demo.series_b 2 0%nat) /\
  bag_selected (EnsembleBagging.__init__
                  Demo.NaiveEstimator Demo.ArEstimator Demo.ArmaEstimator
                  Demo.ArimaEstimator Demo.EtsEstimator
                  Demo.series_a 2 0%nat)
  = bag_selected (EnsembleBagging.__init__
                    Demo.NaiveEstimator Demo.ArEstimator Demo.ArmaEstimator
                    Demo.ArimaEstimator Demo.EtsEstimator
                    Demo.series_b 2 0%nat).
Proof.
  assert (H1 : List.length Demo.series_a = List.length Demo.series_b)
    by reflexivity.
  assert (H2 : firstn (List.length Demo.series_a - Z.to_nat 2) Demo.series_a
               = firstn (List.length Demo.series_b - Z.to_nat 2)
                        Demo.series_b)
    by reflexivity.
  split; [exact H1 |]. split; [exact H2 |].
  apply (selection_ignores_test_window
           Demo.NaiveEstimator Demo.ArEstimator Demo.ArmaEstimator
           Demo.ArimaEstimator Demo.EtsEstimator
           Demo.series_a Demo.series_b 2 0%nat H1 H2).
Defined.

(** C8: in the bagging path, every run of [run_test] on a constructed
    instance calls [fit] exactly once, on the evaluation series, which is
    the series without its last [test_size] values; a run that returns
    has predicted the whole test series from the state that this one fit
    returned. *)
Theorem bagging_fits_once
        {world state : Type} (e1 e2 e3 e4 e5 : Estimator world state)
        (series : list num) (T : Z) w w1 t1 o :
  EnsembleBagging.__init__ e1 e2 e3 e4 e5 series T w = (w1, t1, inr o) ->
  series = EnsembleBagging.eval_series o ++ EnsembleBagging.test_series o /\
  Py.len (EnsembleBagging.test_series o) = T /\
  exists est,
    estimator_of e1 e2 e3 e4 e5 (EnsembleBagging.best_algo o) = Some est /\
    forall w2 w3 t2 r,
      EnsembleBagging.run_test e1 e2 e3 e4 e5 o w2 = (w3, t2, r) ->
      fits t2 = [EnsembleBagging.eval_series o] /\
      forall results,
        r = inr results ->
        exists st wa wb,
          fit est (EnsembleBagging.eval_series o) w2 = (wa, inr st) /\
          predict est st (EnsembleBagging.test_series o) wa
            = (wb, inr results).
Proof.
  intros Hinit.
  destruct (bag_init_estimator _ _ _ _ _ _ _ _ _ _ _ Hinit)
    as (est & Hest & _).
  apply bag_init_ok in Hinit.
  destruct Hinit as (HT & Hlen & _ & _ & _ & Heval & Htest & _).
  rewrite Heval, Htest.
  split; [symmetry; apply slice_to_from |].
  split; [exact Hlen |].
  exists est. split; [exact Hest |].
  intros w2 w3 t2 r Hrun.
  destruct (bag_run_test_cases _ _ _ _ _ _ _ _ _ _ _ Hest Hrun)
    as [Hfits Hres].
  rewrite Heval in Hfits. split; [exact Hfits |].
  intros results ->.
  destruct (Hres results eq_refl) as (st & wa & wb & s & Hf & Hp & _).
  rewrite Heval, Htest in *. eauto.
Qed.

Lemma bagging_fits_once_witness :
  Demo.series_a
    = EnsembleBagging.eval_series Demo.bag_o_a
      ++ EnsembleBagging.test_series Demo.bag_o_a /\
  Py.len (EnsembleBagging.test_series Demo.bag_o_a) = 2 /\
  exists est,
    estimator_of Demo.NaiveEstimator Demo.ArEstimator Demo.ArmaEstimator
                 Demo.ArimaEstimator Demo.EtsEstimator
                 (EnsembleBagging.best_algo Demo.bag_o_a) = Some est /\
    forall w2 w3 t2 r,
      EnsembleBagging.run_test
        Demo.NaiveEstimator Demo.ArEstimator Demo.ArmaEstimator
        Demo.ArimaEstimator Demo.EtsEstimator Demo.bag_o_a w2
        = (w3, t2, r) ->
      fits t2 = [EnsembleBagging.eval_series Demo.bag_o_a] /\
      forall results,
        r = inr results ->
        exists st wa wb,
          fit est (EnsembleBagging.eval_series Demo.bag_o_a) w2
            = (wa, inr st) /\
          predict est st (EnsembleBagging.test_series Demo.bag_o_a) wa
            = (wb, inr results).
Proof.
  exact (bagging_fits_once _ _ _ _ _ _ _ _ _ _ _ demo_bag_init_a).
Defined.



Lemma persistence_never_raises cls c :
  never_raises (Demo.persistence cls c).
Proof. split; intros; simpl; eauto. Qed.


(** ** Logs of all runs *)

Section EmitsFacts.

Context {world : Type}.
Variable P : event -> Prop.

Lemma emits_ret {A} (a : A) : emits P (ret (world := world) a).
Proof. intros w w' t r H. injection H as _ <- _. constructor. Qed.

Lemma emits_raise {A} e : emits P (raise (world := world) (A := A) e).
Proof. intros w w' t r H. injection H as _ <- _. constructor. Qed.

Lemma emits_lift {A} (x : exn + A) : emits P (lift (world := world) x).
Proof. intros w w' t r H. injection H as _ <- _. constructor. Qed.

Lemma emits_tell ev : P ev -> emits P (tell (world := world) ev).
Proof. intros Hev w w' t r H. injection H as _ <- _. auto. Qed.

Lemma emits_call {A} ev (f : world -> world * (exn + A)) :
  P ev -> emits P (call ev f).
Proof.
  intros Hev w w' t r H. unfold call in H. destruct (f w) as [w1 r1].
  injection H as _ <- _. auto.
Qed.

Lemma emits_assert c : emits P (assert (world := world) c).
Proof. destruct c; [apply emits_ret | apply emits_raise]. Qed.

Lemma emits_bind {A B} (m : M world A) (f : A -> M world B) :
  emits P m -> (forall a, emits P (f a)) -> emits P (bind m f).
Proof.
  intros Hm Hf w w' t r H. unfold bind in H.
  destruct (m w) as [[w1 t1] [e | a]] eqn:Em.
  - injection H as _ <- _. eapply Hm; eauto.
  - destruct (f a w1) as [[w2 t2] r2] eqn:Ef. injection H as _ <- _.
    apply Forall_app. split; [eapply Hm | eapply Hf]; eauto.
Qed.

Lemma emits_mapM {A B} (f : A -> M world B) l :
  (forall a, In a l -> emits P (f a)) -> emits P (mapM f l).
Proof.
  induction l as [| a l IH]; intros Hf; simpl; [apply emits_ret |].
  apply emits_bind; [apply Hf; now left |].
  intros b. apply emits_bind; [apply IH; intros; apply Hf; now right |].
  intros bs. apply emits_ret.
Qed.

Lemma emits_foldM {A S} (f : S -> A -> M world S) l :
  (forall s a, In a l -> emits P (f s a)) -> forall s, emits P (foldM f s l).
Proof.
  induction l as [| a l IH]; intros Hf s; simpl; [apply emits_ret |].
  apply emits_bind; [apply Hf; now left |].
  intros s'. apply IH. intros; apply Hf; now right.
Qed.

End EmitsFacts.

Lemma emits_bind_returned {world A B} (P : event -> Prop)
      (m : M world A) (f : A -> M world B) :
  emits P m ->
  (forall a, (exists w w1 t1, m w = (w1, t1, inr a)) -> emits P (f a)) ->
  emits P (bind m f).
Proof.
  intros Hm Hf w w' t r H. unfold bind in H.
  destruct (m w) as [[w1 t1] [e | a]] eqn:Em.
  - injection H as _ <- _. eapply Hm; eauto.
  - destruct (f a w1) as [[w2 t2] r2] eqn:Ef. injection H as _ <- _.
    apply Forall_app. split; [eapply Hm; eauto |].
    eapply Hf; eauto.
Qed.

Lemma ok_inj {A} (a b : A) : @inr exn A a = inr b -> a = b.
Proof. congruence. Qed.

Lemma emits_bind_lift {world A B} (P : event -> Prop) (a : A)
      (f : A -> M world B) :
  emits P (f a) -> emits P (bind (lift (inr a)) f).
Proof.
  intros Hf w w' t r H. unfold bind, lift in H.
  destruct (f a w) as [[w2 t2] r2] eqn:Ef. injection H as _ <- _.
  eapply Hf; eauto.
Qed.

(** ** Logs of cross-validation *)

Section CrossValLog.

Import Py Sklearn.

Context {world state : Type}.
Variable est : Estimator world state.
Variable X : list num.

Let N := List.length X.

(** The data of fold [j]. *)
Lemma fold_data j :
  (11 <= N)%nat -> (j < 10)%nat ->
  take X (seq 0 (origin 10 N j)) = inr (firstn (origin 10 N j) X) /\
  take X (seq (origin 10 N j) (block 10 N))
    = inr (firstn (block 10 N) (skipn (origin 10 N j) X)).
Proof.
  intros HN Hj. pose proof (SplitFacts.origin_end 10 N j Hj) as He.
  fold N in He. split.
  - rewrite take_seq by (fold N; lia). reflexivity.
  - rewrite take_seq by (fold N; lia). reflexivity.
Qed.

Lemma fit_and_score_fold_emits j :
  (11 <= N)%nat -> (j < 10)%nat ->
  emits (selection_event X)
        (fit_and_score est X
           (seq 0 (origin 10 N j), seq (origin 10 N j) (block 10 N))).
Proof.
  intros HN Hj. destruct (fold_data j HN Hj) as [Htr Hte].
  unfold fit_and_score. simpl fst. simpl snd. rewrite Htr, Hte.
  do 2 apply emits_bind_lift.
  apply emits_bind; [| intros st]; apply emits_call; simpl; eauto.
Qed.

(** Whatever its outcome, [cross_val_score] shows the estimator only
    prefixes and contiguous parts of [X]. *)
Lemma cross_val_score_emits :
  emits (selection_event X) (cross_val_score est X 10).
Proof.
  unfold cross_val_score.
  apply emits_bind_returned; [apply emits_lift |].
  intros cv (w & w1 & t1 & Hret). apply lift_ok in Hret.
  destruct Hret as [Hcv _].
  pose proof (SplitFacts.TimeSeriesSplit_ok_inv _ _ _ Hcv) as [_ HN].
  rewrite SplitFacts.TimeSeriesSplit_folds in Hcv by lia.
  apply ok_inj in Hcv. subst cv. apply emits_mapM. intros fold Hin.
  apply in_map_iff in Hin. destruct Hin as (j & <- & Hj).
  apply in_seq in Hj. apply fit_and_score_fold_emits; [exact HN | lia].
Qed.

Lemma fit_and_score_fold_log j w w' t s :
  (11 <= N)%nat -> (j < 10)%nat ->
  fit_and_score est X
    (seq 0 (origin 10 N j), seq (origin 10 N j) (block 10 N)) w
    = (w', t, inr s) ->
  t = [Fit (name est) (firstn (origin 10 N j) X);
       Score (name est) (firstn (block 10 N) (skipn (origin 10 N j) X))].
Proof.
  intros HN Hj H. destruct (fold_data j HN Hj) as [Htr Hte].
  unfold fit_and_score in H. simpl fst in H. simpl snd in H.
  rewrite Htr, Hte in H. run_inv H. subst.
  repeat match goal with
         | E : inr _ = inr _ |- _ => injection E as <-
         end.
  reflexivity.
Qed.

Lemma mapM_folds_log js : forall w w' t scores,
  (11 <= N)%nat -> (forall j, In j js -> (j < 10)%nat) ->
  mapM (fit_and_score est X)
       (map (fun j => (seq 0 (origin 10 N j),
                       seq (origin 10 N j) (block 10 N))) js) w
    = (w', t, inr scores) ->
  t = flat_map
        (fun j =>
           [Fit (name est) (firstn (origin 10 N j) X);
            Score (name est)
                  (firstn (block 10 N) (skipn (origin 10 N j) X))]) js.
Proof.
  induction js as [| j js IH]; intros w w' t scores HN Hjs H.
  - simpl in H. run_inv H. subst. reflexivity.
  - simpl in H. apply bind_ok in H.
    destruct H as (w1 & t1 & s & t2 & Hfold & Hrest & ->).
    apply fit_and_score_fold_log in Hfold; [| exact HN | apply Hjs; now left].
    apply bind_ok in Hrest.
    destruct Hrest as (w2 & t3 & ss & t4 & Hmap & Hret & ->).
    apply ret_ok in Hret. destruct Hret as (_ & _ & ->).
    apply IH in Hmap; [| exact HN | intros; apply Hjs; now right].
    subst. simpl. now rewrite app_nil_r.
Qed.

(** A [cross_val_score] that returns logged exactly [cv_log]. *)
Lemma cross_val_score_log w w' t scores :
  cross_val_score est X 10 w = (w', t, inr scores) ->
  t = cv_log (name est) X.
Proof.
  intros H. unfold cross_val_score in H. apply bind_ok in H.
  destruct H as (w1 & t1 & cv & t2 & Hcv & Hmap & ->).
  apply lift_ok in Hcv. destruct Hcv as (Hcv & -> & ->).
  pose proof (SplitFacts.TimeSeriesSplit_ok_inv _ _ _ Hcv) as [_ HN].
  rewrite SplitFacts.TimeSeriesSplit_folds in Hcv by lia.
  apply ok_inj in Hcv. subst cv.
  apply mapM_folds_log in Hmap; [| exact HN |].
  - simpl. exact Hmap.
  - intros j Hj. apply in_seq in Hj. lia.
Qed.

End CrossValLog.

(** ** Logs of the constructors *)

Section ConstructorLogs.

Import Py Sklearn.

Context {world state : Type}.
Variables e1 e2 e3 e4 e5 : Estimator world state.

Lemma cv_score_mapping_emits X :
  emits (selection_event X)
        (EnsembleCrossValidation.score_mapping e1 e2 e3 e4 e5 X).
Proof.
  unfold EnsembleCrossValidation.score_mapping.
  repeat (apply emits_bind; [apply cross_val_score_emits | intros ?]).
  apply emits_ret.
Qed.

Lemma bag_score_mapping_emits X :
  emits (selection_event X)
        (EnsembleBagging.score_mapping e1 e2 e3 e4 e5 X).
Proof.
  unfold EnsembleBagging.score_mapping.
  repeat (apply emits_bind; [now apply emits_tell | intros ?];
          apply emits_bind; [apply cross_val_score_emits | intros ?]).
  apply emits_ret.
Qed.

Lemma cv_score_mapping_log X w w' t score :
  EnsembleCrossValidation.score_mapping e1 e2 e3 e4 e5 X w
    = (w', t, inr score) ->
  t = cv_log (name e1) X ++ cv_log (name e2) X ++ cv_log (name e3) X
      ++ cv_log (name e4) X ++ cv_log (name e5) X.
Proof.
  intros H. unfold EnsembleCrossValidation.score_mapping in H.
  run_inv H.
  repeat match goal with
         | Hc : cross_val_score _ _ _ _ = _ |- _ =>
             apply cross_val_score_log in Hc
         end.
  subst. rewrite <- ?app_assoc, ?app_nil_r. reflexivity.
Qed.

Lemma bag_score_mapping_log X w w' t score :
  EnsembleBagging.score_mapping e1 e2 e3 e4 e5 X w = (w', t, inr score) ->
  t = Warn "Scoring Naive Bagging" :: cv_log (name e1) X
      ++ Warn "Scoring AR Bagging" :: cv_log (name e2) X
      ++ Warn "Scoring ARMA Bagging" :: cv_log (name e3) X
      ++ Warn "Scoring ARIMA Bagging" :: cv_log (name e4) X
      ++ Warn "Scoring ETS Bagging" :: cv_log (name e5) X.
Proof.
  intros H. unfold EnsembleBagging.score_mapping in H.
  run_inv H.
  repeat match goal with
         | Hc : cross_val_score _ _ _ _ = _ |- _ =>
             apply cross_val_score_log in Hc
         end.
  subst. simpl. rewrite ?app_nil_r.
  repeat (rewrite <- ?app_assoc; simpl). reflexivity.
Qed.

End ConstructorLogs.

(** X1: while selecting a model, neither constructor shows an estimator
    anything but the evaluation series: in every run, whatever its
    outcome, each [fit] is on a prefix of [series[:-test_size]], each
    [score] on a contiguous part of it, and nothing is predicted,
    forecast or written. *)
Theorem selection_confined_to_evaluation_series
        {world state : Type} (e1 e2 e3 e4 e5 : Estimator world state)
        (series : list num) (T : Z) :
  (forall w w' t r,
      EnsembleCrossValidation.__init__ e1 e2 e3 e4 e5 series T w
        = (w', t, r) ->
      Forall (selection_event (Py.slice_to series (- T))) t) /\
  (forall w w' t r,
      EnsembleBagging.__init__ e1 e2 e3 e4 e5 series T w = (w', t, r) ->
      Forall (selection_event (Py.slice_to series (- T))) t).
Proof.
  split.
  - change (emits (selection_event (Py.slice_to series (- T)))
                  (EnsembleCrossValidation.__init__
                     e1 e2 e3 e4 e5 series T)).
    unfold EnsembleCrossValidation.__init__.
    destruct (T <=? 0); [apply emits_raise |].
    apply emits_bind; [now apply emits_tell | intros _].
    apply emits_bind; [apply cv_score_mapping_emits | intros score].
    apply emits_bind; [apply emits_lift | intros best].
    apply emits_bind; [now apply emits_tell | intros _].
    apply emits_ret.
  - change (emits (selection_event (Py.slice_to series (- T)))
                  (EnsembleBagging.__init__ e1 e2 e3 e4 e5 series T)).
    unfold EnsembleBagging.__init__.
    destruct (T <=? 0); [apply emits_raise |].
    apply emits_bind; [apply emits_assert | intros _].
    apply emits_bind; [apply emits_assert | intros _].
    apply emits_bind; [now apply emits_tell | intros _].
    apply emits_bind; [apply bag_score_mapping_emits | intros score].
    apply emits_bind; [now apply emits_tell | intros _].
    apply emits_bind; [apply emits_lift | intros best].
    apply emits_bind; [now apply emits_tell | intros _].
    apply emits_ret.
Qed.

Lemma demo_init_a_run :
  EnsembleCrossValidation.__init__
    Demo.NaiveEstimator Demo.ArEstimator Demo.ArmaEstimator
    Demo.ArimaEstimator Demo.EtsEstimator Demo.series_a 2 0%nat
  = (fst (fst Demo.init_a), snd (fst Demo.init_a), snd Demo.init_a).
Proof.
  unfold Demo.init_a.
  now destruct (EnsembleCrossValidation.__init__ _ _ _ _ _ _ _ _)
    as [[? ?] ?].
Qed.

Lemma selection_confined_to_evaluation_series_witness :
  Forall (selection_event (Py.slice_to Demo.series_a (- (2))))
         (snd (fst Demo.init_a)).
Proof.
  exact (proj1 (selection_confined_to_evaluation_series
                  Demo.NaiveEstimator Demo.ArEstimator Demo.ArmaEstimator
                  Demo.ArimaEstimator Demo.EtsEstimator Demo.series_a 2)
               _ _ _ _ demo_init_a_run).
Defined.



Lemma score_inputs_app t1 t2 :
  score_inputs (t1 ++ t2) = score_inputs t1 ++ score_inputs t2.
Proof. apply flat_map_app. Qed.

Lemma written_app t1 t2 : written (t1 ++ t2) = written t1 ++ written t2.
Proof. apply flat_map_app. Qed.

(** The log of a cross-validation constructor that returns. *)
Lemma cv_init_log_shape
        {world state : Type} (e1 e2 e3 e4 e5 : Estimator world state)
        (series : list num) (T : Z) w w' t o :
  EnsembleCrossValidation.__init__ e1 e2 e3 e4 e5 series T w
    = (w', t, inr o) ->
  let eval_series := firstn (List.length series - Z.to_nat T) series in
  t = Warn "Deciding best algorithm"
      :: cv_log (name e1) eval_series ++ cv_log (name e2) eval_series
      ++ cv_log (name e3) eval_series ++ cv_log (name e4) eval_series
      ++ cv_log (name e5) eval_series
      ++ [Warn ("Best Algorithm: "
                ++ EnsembleCrossValidation.best_algo o)%string] /\
  List.length (fits t) = 50%nat /\
  List.length (score_inputs t) = 50%nat.
Proof.
  intros H eval_series. unfold EnsembleCrossValidation.__init__ in H.
  destruct (Z.leb_spec T 0) as [HT | HT]; [discriminate |].
  apply bind_ok in H. destruct H as (w1 & t1 & u & t2 & Htell & H & ->).
  apply tell_ok in Htell. destruct Htell as [-> ->].
  apply bind_ok in H. destruct H as (w2 & t3 & score & t4 & Hsc & H & ->).
  apply cv_score_mapping_log in Hsc.
  run_inv H. subst. simpl.
  unfold Py.slice_to. rewrite slice_bound_neg by assumption.
  fold eval_series. rewrite <- ?app_assoc. simpl.
  split; [reflexivity |]. split; reflexivity.
Qed.



(** The log of a bagging constructor that returns. *)
Lemma bag_init_log_shape
        {world state : Type} (e1 e2 e3 e4 e5 : Estimator world state)
        (series : list num) (T : Z) w w' t o :
  EnsembleBagging.__init__ e1 e2 e3 e4 e5 series T w = (w', t, inr o) ->
  let eval_series := firstn (List.length series - Z.to_nat T) series in
  exists score,
    t = Warn "Deciding best algorithm..."
        :: Warn "Scoring Naive Bagging" :: cv_log (name e1) eval_series
        ++ Warn "Scoring AR Bagging" :: cv_log (name e2) eval_series
        ++ Warn "Scoring ARMA Bagging" :: cv_log (name e3) eval_series
        ++ Warn "Scoring ARIMA Bagging" :: cv_log (name e4) eval_series
        ++ Warn "Scoring ETS Bagging" :: cv_log (name e5) eval_series
        ++ [WarnScores score;
            Warn ("Best Algorithm: "
                  ++ EnsembleBagging.best_algo o)%string] /\
    Py.keys score = enumeration /\
    EnsembleBagging.select score = inr (EnsembleBagging.best_algo o).
Proof.
  intros H eval_series. unfold EnsembleBagging.__init__ in H.
  destruct (Z.leb_spec T 0) as [HT | HT]; [discriminate |].
  apply bind_ok in H. destruct H as (w1 & t1 & u1 & t2 & Ha1 & H & ->).
  apply assert_ok in Ha1. destruct Ha1 as (_ & -> & ->).
  apply bind_ok in H. destruct H as (w1 & t1 & u2 & t3 & Ha2 & H & ->).
  apply assert_ok in Ha2. destruct Ha2 as (_ & -> & ->).
  apply bind_ok in H. destruct H as (w1 & t1 & u3 & t4 & Htell & H & ->).
  apply tell_ok in Htell. destruct Htell as [-> ->].
  apply bind_ok in H. destruct H as (w2 & t5 & score & t6 & Hsc & H & ->).
  pose proof (bag_score_mapping_log _ _ _ _ _ _ _ _ _ _ Hsc) as Hlog.
  apply bag_score_mapping_ok in Hsc.
  destruct Hsc as (s1 & s2 & s3 & s4 & s5 & wa & wb & wc & wd & Hscore & _).
  run_inv H. subst t5. subst. exists
    [("naive", Py.mean s1); ("ar", Py.mean s2); ("arma", Py.mean s3);
     ("arima", Py.mean s4); ("ets", Py.mean s5)]%string.
  simpl. unfold Py.slice_to. rewrite slice_bound_neg by assumption.
  fold eval_series. repeat (rewrite <- ?app_assoc; simpl).
  repeat split; auto.
Qed.



(** ** The folds as data *)





(** ** Means *)









(** ** Success and failure of construction *)

Section Construction.

Import Py Sklearn.

Context {world state : Type}.
Variables e1 e2 e3 e4 e5 : Estimator world state.

Lemma fold_scores_needs_11 (est : Estimator world state) X w scores w' :
  fold_scores est X w scores w' -> (11 <= List.length X)%nat.
Proof.
  intros (cv & Hcv & _). apply SplitFacts.TimeSeriesSplit_ok_inv in Hcv.
  lia.
Qed.

Lemma cv_init_best_algo series T w w' t o :
  EnsembleCrossValidation.__init__ e1 e2 e3 e4 e5 series T w
    = (w', t, inr o) ->
  In (EnsembleCrossValidation.best_algo o) enumeration.
Proof.
  intros H. apply cv_init_ok in H.
  destruct H as (_ & _ & _ & _ & t' & score & Hscore & Hsel).
  apply cv_score_mapping_ok in Hscore.
  destruct Hscore as (s1 & s2 & s3 & s4 & s5 & w1 & w2 & w3 & w4 & -> & _).
  eapply select_in_enumeration; [| right; exact Hsel]. reflexivity.
Qed.

Lemma bag_init_best_algo series T w w' t o :
  EnsembleBagging.__init__ e1 e2 e3 e4 e5 series T w = (w', t, inr o) ->
  In (EnsembleBagging.best_algo o) enumeration /\
  (11 <= List.length (slice_to series (- T)))%nat.
Proof.
  intros H. apply bag_init_ok in H.
  destruct H as (_ & _ & _ & _ & _ & _ & _ & t' & score & Hscore & Hsel).
  apply bag_score_mapping_ok in Hscore.
  destruct Hscore
    as (s1 & s2 & s3 & s4 & s5 & w1 & w2 & w3 & w4 & -> & F1 & _).
  split; [| eapply fold_scores_needs_11; eauto].
  eapply select_in_enumeration; [| left; exact Hsel]. reflexivity.
Qed.

(** The selectors return on every mapping that scoring produces. *)
Lemma select_five (v1 v2 v3 v4 v5 : num) :
  let score := [("naive", v1); ("ar", v2); ("arma", v3); ("arima", v4);
                ("ets", v5)]%string in
  (exists k, EnsembleCrossValidation.select score = inr k) /\
  (exists k, EnsembleBagging.select score = inr k).
Proof.
  intros score. assert (score <> []) as Hne by discriminate. split.
  - destruct (SelectorFacts.max_key_first score Hne) as (k & _ & _ & _ & H & _).
    exists k. exact H.
  - destruct (SelectorFacts.min_key_first score Hne) as (k & _ & _ & _ & H & _).
    exists k. exact H.
Qed.

Lemma cv_init_runs series T w :
  0 < T -> T + 11 <= len series ->
  never_raises e1 -> never_raises e2 -> never_raises e3 ->
  never_raises e4 -> never_raises e5 ->
  exists w' t o,
    EnsembleCrossValidation.__init__ e1 e2 e3 e4 e5 series T w
      = (w', t, inr o).
Proof.
  intros HT HN H1 H2 H3 H4 H5.
  assert (11 <= List.length (slice_to series (- T)))%nat as H11.
  { pose proof (len_slice_to_neg series T HT) as E. unfold len in *. lia. }
  destruct (cv_score_mapping_runs e1 e2 e3 e4 e5 _ w H1 H2 H3 H4 H5 H11)
    as (w' & t & score & Hrun).
  pose proof (cv_score_mapping_ok _ _ _ _ _ _ _ _ _ _ Hrun)
    as (s1 & s2 & s3 & s4 & s5 & w1 & w2 & w3 & w4 & Hshape & _).
  destruct (select_five (mean s1) (mean s2) (mean s3) (mean s4) (mean s5))
    as [[k Hk] _].
  rewrite <- Hshape in Hk.
  do 3 eexists. unfold EnsembleCrossValidation.__init__.
  destruct (Z.leb_spec T 0); [lia |].
  eapply bind_step; [reflexivity |].
  eapply bind_step; [exact Hrun |].
  eapply bind_step; [unfold lift; rewrite Hk; reflexivity |].
  eapply bind_step; reflexivity.
Qed.

Lemma bag_init_runs series T w :
  0 < T -> T + 11 <= len series ->
  never_raises e1 -> never_raises e2 -> never_raises e3 ->
  never_raises e4 -> never_raises e5 ->
  exists w' t o,
    EnsembleBagging.__init__ e1 e2 e3 e4 e5 series T w = (w', t, inr o).
Proof.
  intros HT HN H1 H2 H3 H4 H5.
  pose proof (len_slice_to_neg series T HT) as Eto.
  pose proof (len_slice_from_neg series T HT) as Efrom.
  assert (11 <= List.length (slice_to series (- T)))%nat as H11
    by (unfold len in *; lia).
  destruct (bag_score_mapping_runs e1 e2 e3 e4 e5 _ w H1 H2 H3 H4 H5 H11)
    as (w' & t & score & Hrun).
  pose proof (bag_score_mapping_ok _ _ _ _ _ _ _ _ _ _ Hrun)
    as (s1 & s2 & s3 & s4 & s5 & w1 & w2 & w3 & w4 & Hshape & _).
  destruct (select_five (mean s1) (mean s2) (mean s3) (mean s4) (mean s5))
    as [_ [k Hk]].
  rewrite <- Hshape in Hk.
  do 3 eexists. unfold EnsembleBagging.__init__.
  destruct (Z.leb_spec T 0); [lia |].
  replace (len (slice_from series (- T)) =? T) with true
    by (symmetry; apply Z.eqb_eq; lia).
  replace (len (slice_from series (- T)) + len (slice_to series (- T))
           =? len series) with true
    by (symmetry; apply Z.eqb_eq; lia).
  eapply bind_step; [reflexivity |].
  eapply bind_step; [reflexivity |].
  eapply bind_step; [reflexivity |].
  eapply bind_step; [exact Hrun |].
  eapply bind_step; [reflexivity |].
  eapply bind_step; [unfold lift; rewrite Hk; reflexivity |].
  eapply bind_step; reflexivity.
Qed.

End Construction.

(** X6: what holds of every instance a constructor returned: the test
    window length was positive, the series had at least [test_size + 11]
    values, [test_series] is exactly the last [test_size] values (and, in
    the bagging path, [eval_series] the values before them), and
    [best_algo] is one of naive, ar, arma, arima, ets. *)
Theorem constructed_instance_invariants
        {world state : Type} (e1 e2 e3 e4 e5 : Estimator world state)
        (series : list num) (T : Z) :
  (forall w w' t o,
      EnsembleCrossValidation.__init__ e1 e2 e3 e4 e5 series T w
        = (w', t, inr o) ->
      0 < T /\ T + 11 <= Py.len series /\
      EnsembleCrossValidation.series o = series /\
      EnsembleCrossValidation.test_size o = T /\
      EnsembleCrossValidation.test_series o
        = skipn (List.length series - Z.to_nat T) series /\
      Py.len (EnsembleCrossValidation.test_series o) = T /\
      In (EnsembleCrossValidation.best_algo o) enumeration) /\
  (forall w w' t o,
      EnsembleBagging.__init__ e1 e2 e3 e4 e5 series T w = (w', t, inr o) ->
      0 < T /\ T + 11 <= Py.len series /\
      EnsembleBagging.series o = series /\
      EnsembleBagging.test_size o = T /\
      EnsembleBagging.eval_series o
        = firstn (List.length series - Z.to_nat T) series /\
      EnsembleBagging.test_series o
        = skipn (List.length series - Z.to_nat T) series /\
      Py.len (EnsembleBagging.test_series o) = T /\
      In (EnsembleBagging.best_algo o) enumeration).
Proof.
  split.
  - intros w w' t o H.
    pose proof (cv_init_best_algo _ _ _ _ _ _ _ _ _ _ _ H) as Hbest.
    pose proof (cv_init_ok _ _ _ _ _ _ _ _ _ _ _ H) as (_ & Hs & _).
    apply cv_init_test_window in H.
    destruct H as (HT & HN & Hsize & Hlen & Htest).
    repeat split; auto.
  - intros w w' t o H.
    pose proof (bag_init_best_algo _ _ _ _ _ _ _ _ _ _ _ H) as [Hbest H11].
    apply bag_init_ok in H.
    destruct H as (HT & Hlen & _ & Hs & Hsize & Heval & Htest & _).
    pose proof (len_slice_to_neg series T HT) as Eto.
    pose proof (slice_bound_neg (List.length series) T HT) as Hb.
    split; [exact HT |].
    split; [unfold Py.len in *; lia |].
    split; [exact Hs |]. split; [exact Hsize |].
    split; [rewrite Heval; unfold Py.slice_to; now rewrite Hb |].
    split; [rewrite Htest; unfold Py.slice_from; now rewrite Hb |].
    split; [rewrite Htest; exact Hlen | exact Hbest].
Qed.

Lemma constructed_instance_invariants_witness :
  0 < 2 /\ 2 + 11 <= Py.len Demo.series_a /\
  EnsembleBagging.eval_series Demo.bag_o_a
    = firstn (List.length Demo.series_a - Z.to_nat 2) Demo.series_a /\
  In (EnsembleBagging.best_algo Demo.bag_o_a) enumeration.
Proof.
  destruct (proj2 (constructed_instance_invariants
                     Demo.NaiveEstimator Demo.ArEstimator
                     Demo.ArmaEstimator Demo.ArimaEstimator
                     Demo.EtsEstimator Demo.series_a 2)
                  _ _ _ _ demo_bag_init_a)
    as (HT & HN & _ & _ & Heval & _ & _ & Hbest).
  repeat split; assumption.
Defined.

(** X7: both constructors return an instance whenever [test_size] is
    positive, the series has at least [test_size + 11] values and no
    estimator raises in [fit] or [score]. *)
Theorem construction_succeeds
        {world state : Type} (e1 e2 e3 e4 e5 : Estimator world state)
        (series : list num) (T : Z) (w : world) :
  0 < T -> T + 11 <= Py.len series ->
  never_raises e1 -> never_raises e2 -> never_raises e3 ->
  never_raises e4 -> never_raises e5 ->
  (exists w' t o,
      EnsembleCrossValidation.__init__ e1 e2 e3 e4 e5 series T w
        = (w', t, inr o)) /\
  (exists w' t o,
      EnsembleBagging.__init__ e1 e2 e3 e4 e5 series T w = (w', t, inr o)).
Proof.
  intros HT HN H1 H2 H3 H4 H5. split.
  - now apply cv_init_runs.
  - now apply bag_init_runs.
Qed.

Lemma construction_succeeds_witness :
  (exists w' t o,
      EnsembleCrossValidation.__init__
        Demo.NaiveEstimator Demo.ArEstimator Demo.ArmaEstimator
        Demo.ArimaEstimator Demo.EtsEstimator Demo.series_a 2 0%nat
        = (w', t, inr o)) /\
  (exists w' t o,
      EnsembleBagging.__init__
        Demo.NaiveEstimator Demo.ArEstimator Demo.ArmaEstimator
        Demo.ArimaEstimator Demo.EtsEstimator Demo.series_a 2 0%nat
        = (w', t, inr o)).
Proof.
  apply construction_succeeds; try apply persistence_never_raises.
  - lia.
  - unfold Py.len. simpl. lia.
Defined.

Lemma cv_init_short {world state : Type}
      (e1 e2 e3 e4 e5 : Estimator world state)
      (series : list num) (T : Z) (w : world) :
  0 < T -> Py.len series < T + 11 ->
  EnsembleCrossValidation.__init__ e1 e2 e3 e4 e5 series T w
    = (w, [Warn "Deciding best algorithm"], inl ValueError).
Proof.
  intros HT HN.
  pose proof (len_slice_to_neg series T HT) as Eto.
  unfold EnsembleCrossValidation.__init__.
  destruct (Z.leb_spec T 0); [lia |].
  unfold EnsembleCrossValidation.score_mapping, Sklearn.cross_val_score.
  rewrite SplitFacts.TimeSeriesSplit_rejects
    by (unfold Py.len in *; lia).
  reflexivity.
Qed.

Lemma bag_init_short {world state : Type}
      (e1 e2 e3 e4 e5 : Estimator world state)
      (series : list num) (T : Z) (w : world) :
  0 < T -> T <= Py.len series < T + 11 ->
  EnsembleBagging.__init__ e1 e2 e3 e4 e5 series T w
    = (w, [Warn "Deciding best algorithm...";
           Warn "Scoring Naive Bagging"], inl ValueError).
Proof.
  intros HT HN.
  pose proof (len_slice_to_neg series T HT) as Eto.
  pose proof (len_slice_from_neg series T HT) as Efrom.
  unfold EnsembleBagging.__init__.
  destruct (Z.leb_spec T 0); [lia |].
  replace (Py.len (Py.slice_from series (- T)) =? T) with true
    by (symmetry; apply Z.eqb_eq; lia).
  replace (Py.len (Py.slice_from series (- T))
           + Py.len (Py.slice_to series (- T)) =? Py.len series)
    with true by (symmetry; apply Z.eqb_eq; lia).
  unfold EnsembleBagging.score_mapping, Sklearn.cross_val_score.
  rewrite SplitFacts.TimeSeriesSplit_rejects
    by (unfold Py.len in *; lia).
  reflexivity.
Qed.

Lemma bag_init_too_short {world state : Type}
      (e1 e2 e3 e4 e5 : Estimator world state)
      (series : list num) (T : Z) (w : world) :
  Py.len series < T ->
  EnsembleBagging.__init__ e1 e2 e3 e4 e5 series T w
    = (w, [], inl AssertionError).
Proof.
  intros HN. assert (0 < T) as HT by (unfold Py.len in HN; lia).
  pose proof (len_slice_from_neg series T HT) as Efrom.
  unfold EnsembleBagging.__init__.
  destruct (Z.leb_spec T 0); [lia |].
  replace (Py.len (Py.slice_from series (- T)) =? T) with false
    by (symmetry; apply Z.eqb_neq; lia).
  reflexivity.
Qed.

(** X8: a series too short for 10 folds is refused with [ValueError]
    before anything is fit.  The cross-validation constructor has no
    length assertion: for every series with fewer than [test_size + 11]
    values, also one shorter than the test window, it raises after its
    first warning.  The bagging constructor does so, after its first two
    warnings, when the series has at least [test_size] values but fewer
    than [test_size + 11]. *)
Theorem short_series_refused
        {world state : Type} (e1 e2 e3 e4 e5 : Estimator world state)
        (series : list num) (T : Z) (w : world) :
  0 < T ->
  (Py.len series < T + 11 ->
   EnsembleCrossValidation.__init__ e1 e2 e3 e4 e5 series T w
     = (w, [Warn "Deciding best algorithm"], inl ValueError)) /\
  (T <= Py.len series < T + 11 ->
   EnsembleBagging.__init__ e1 e2 e3 e4 e5 series T w
     = (w, [Warn "Deciding best algorithm...";
            Warn "Scoring Naive Bagging"], inl ValueError)).
Proof.
  intros HT. split; intros HN.
  - now apply cv_init_short.
  - now apply bag_init_short.
Qed.

Lemma short_series_refused_witness :
  0 < 3 /\ Py.len Demo.series_a < 3 + 11 /\
  EnsembleCrossValidation.__init__
    Demo.NaiveEstimator Demo.ArEstimator Demo.ArmaEstimator
    Demo.ArimaEstimator Demo.EtsEstimator Demo.series_a 3 0%nat
    = (0%nat, [Warn "Deciding best algorithm"], inl ValueError) /\
  EnsembleBagging.__init__
    Demo.NaiveEstimator Demo.ArEstimator Demo.ArmaEstimator
    Demo.ArimaEstimator Demo.EtsEstimator Demo.series_a 3 0%nat
    = (0%nat, [Warn "Deciding best algorithm...";
               Warn "Scoring Naive Bagging"], inl ValueError).
Proof.
  assert (H0 : 0 < 3) by lia.
  assert (H1 : Py.len Demo.series_a < 3 + 11) by (vm_compute; reflexivity).
  assert (H2 : 3 <= Py.len Demo.series_a < 3 + 11)
    by (split; vm_compute; [discriminate | reflexivity]).
  split; [exact H0 |]. split; [exact H1 |].
  destruct (short_series_refused
              Demo.NaiveEstimator Demo.ArEstimator Demo.ArmaEstimator
              Demo.ArimaEstimator Demo.EtsEstimator
              Demo.series_a 3 0%nat H0) as [Hcv Hbag].
  split; [exact (Hcv H1) | exact (Hbag H2)].
Defined.

(** ** All runs of the walk-forward runners *)

Section CrossValidationRunCases.

Import Py.

Context {world : Type}.
Variable algo : ForecastAlgorithms world.

(** The loop stops at the first forecast that raises: it has then made
    the calls of a prefix of the indices. *)
Lemma walk_loop_cases algo_name
      (forecast : list num -> world -> world * (exn + num)) o l :
  forall results w w' t r,
    foldM (EnsembleCrossValidation.step algo_name forecast o) results l w
      = (w', t, r) ->
    exists k,
      (k <= List.length l)%nat /\
      t = map (fun i => Forecast algo_name
                          (slice_from
                             (EnsembleCrossValidation.test_series o) i))
              (firstn k l) /\
      forall res, r = inr res ->
                  k = List.length l /\
                  List.length res = (List.length results + k)%nat.
Proof.
  induction l as [| i l IH]; intros results w w' t r H.
  - simpl in H. injection H as <- <- <-. exists 0%nat.
    split; [simpl; lia |]. split; [reflexivity |].
    intros res E. injection E as <-. split; [reflexivity | lia].
  - simpl in H. apply bind_cases in H.
    destruct H as [(e & Hstep & ->) | (w1 & t1 & a & t2 & Hstep & H & ->)].
    + unfold EnsembleCrossValidation.step in Hstep.
      apply bind_cases in Hstep.
      destruct Hstep as [(e' & Hc & _) | (w1 & t1 & x & t2 & _ & Hr & _)];
        [| discriminate Hr].
      apply call_cases in Hc. destruct Hc as [_ ->].
      exists 1%nat. simpl.
      split; [lia |]. split; [reflexivity | discriminate].
    + unfold EnsembleCrossValidation.step in Hstep.
      apply bind_ok in Hstep.
      destruct Hstep as (w2 & t3 & x & t4 & Hc & Hr & ->).
      apply call_ok in Hc. destruct Hc as [_ ->].
      apply ret_ok in Hr. destruct Hr as (-> & _ & ->).
      apply IH in H. destruct H as (k & Hk & -> & Hres).
      exists (S k). simpl.
      split; [lia |]. split; [reflexivity |].
      intros res ->. destruct (Hres res eq_refl) as [-> Hlen].
      split; [reflexivity |].
      rewrite Hlen, length_app. simpl. lia.
Qed.

(** One branch of [run_test], whatever its outcome. *)
Lemma branch_cases msg algo_name
      (forecast : list num -> world -> world * (exn + num)) o w w' t r :
  bind (tell (Warn msg))
       (fun _ => EnsembleCrossValidation.walk algo_name forecast o []) w
    = (w', t, r) ->
  exists k,
    (k <= Z.to_nat (EnsembleCrossValidation.test_size o))%nat /\
    t = Warn msg
        :: map (fun i => Forecast algo_name
                           (slice_from
                              (EnsembleCrossValidation.test_series o) i))
               (firstn k (range (EnsembleCrossValidation.test_size o))) /\
    forall res, r = inr res ->
                k = Z.to_nat (EnsembleCrossValidation.test_size o) /\
                List.length res = k.
Proof.
  intros H. apply bind_cases in H.
  destruct H as [(e & Ht & _) | (w1 & t1 & u & t2 & Ht & H & ->)];
    [discriminate Ht |].
  apply tell_ok in Ht. destruct Ht as [-> ->].
  unfold EnsembleCrossValidation.walk in H. apply walk_loop_cases in H.
  destruct H as (k & Hk & -> & Hres). rewrite length_range in *.
  exists k. split; [exact Hk |]. split; [reflexivity |].
  intros res E. destruct (Hres res E) as [-> Hlen]. auto.
Qed.

End CrossValidationRunCases.

Section CrossValidationRunShape.

Import Py.

Context {world : Type}.
Variable algo : ForecastAlgorithms world.

(** A branch followed by the write of the result file. *)
Lemma branch_then_write msg algo_name
      (forecast : list num -> world -> world * (exn + num)) o w w' t r :
  bind (bind (tell (Warn msg))
             (fun _ => EnsembleCrossValidation.walk algo_name forecast o []))
       (fun results =>
          bind (tell (ToCsv None results)) (fun _ => ret results)) w
    = (w', t, r) ->
  exists k,
    (k <= Z.to_nat (EnsembleCrossValidation.test_size o))%nat /\
    match r with
    | inl _ =>
        t = Warn msg
            :: map (fun i => Forecast algo_name
                               (slice_from
                                  (EnsembleCrossValidation.test_series o) i))
                   (firstn k (range (EnsembleCrossValidation.test_size o)))
    | inr results =>
        k = Z.to_nat (EnsembleCrossValidation.test_size o) /\
        List.length results = k /\
        t = Warn msg
            :: map (fun i => Forecast algo_name
                               (slice_from
                                  (EnsembleCrossValidation.test_series o) i))
                   (range (EnsembleCrossValidation.test_size o))
            ++ [ToCsv None results]
    end.
Proof.
  intros H. apply bind_cases in H.
  destruct H as [(e & Hb & ->) | (w1 & t1 & res & t2 & Hb & Htail & ->)];
    apply branch_cases in Hb; destruct Hb as (k & Hk & -> & Hres).
  - exists k. auto.
  - destruct (Hres res eq_refl) as [-> Hlen].
    unfold bind, tell, ret in Htail. injection Htail as <- <- <-.
    exists (Z.to_nat (EnsembleCrossValidation.test_size o)).
    split; [lia |]. split; [reflexivity |]. split; [exact Hlen |].
    rewrite firstn_all2 by (rewrite length_range; lia).
    simpl. reflexivity.
Qed.

(** Every run of the cross-validation [run_test]. *)
Lemma cv_run_test_cases o w w' t r :
  EnsembleCrossValidation.run_test algo o w = (w', t, r) ->
  match forecast_of algo (EnsembleCrossValidation.best_algo o) with
  | None => w' = w /\ t = [] /\ r = inl AssertionError
  | Some _ =>
      exists msg k,
        (k <= Z.to_nat (EnsembleCrossValidation.test_size o))%nat /\
        match r with
        | inl _ =>
            t = Warn msg
                :: map (fun i =>
                          Forecast (EnsembleCrossValidation.best_algo o)
                            (slice_from
                               (EnsembleCrossValidation.test_series o) i))
                       (firstn k
                          (range (EnsembleCrossValidation.test_size o)))
        | inr results =>
            k = Z.to_nat (EnsembleCrossValidation.test_size o) /\
            List.length results = k /\
            t = Warn msg
                :: map (fun i =>
                          Forecast (EnsembleCrossValidation.best_algo o)
                            (slice_from
                               (EnsembleCrossValidation.test_series o) i))
                       (range (EnsembleCrossValidation.test_size o))
                ++ [ToCsv None results]
        end
  end.
Proof.
  unfold EnsembleCrossValidation.run_test, forecast_of. intros H.
  destruct (String.eqb_spec (EnsembleCrossValidation.best_algo o) "naive")
    as [-> | _];
    [eexists; eapply branch_then_write; exact H |].
  destruct (String.eqb_spec (EnsembleCrossValidation.best_algo o) "ar")
    as [-> | _];
    [eexists; eapply branch_then_write; exact H |].
  destruct (String.eqb_spec (EnsembleCrossValidation.best_algo o) "arma")
    as [-> | _];
    [eexists; eapply branch_then_write; exact H |].
  destruct (String.eqb_spec (EnsembleCrossValidation.best_algo o) "arima")
    as [-> | _];
    [eexists; eapply branch_then_write; exact H |].
  destruct (String.eqb_spec (EnsembleCrossValidation.best_algo o) "ets")
    as [-> | _];
    [eexists; eapply branch_then_write; exact H |].
  unfold bind, raise in H. injection H as <- <- <-. auto.
Qed.

End CrossValidationRunShape.

Section BaggingRunShape.

Import Py.

Context {world state : Type}.
Variables e1 e2 e3 e4 e5 : Estimator world state.

Lemma assign_estimator_log o w :
  match estimator_of e1 e2 e3 e4 e5 (EnsembleBagging.best_algo o) with
  | Some est =>
      exists msg,
        EnsembleBagging.assign_estimator e1 e2 e3 e4 e5 o w
          = (w, [Warn msg], inr est)
  | None =>
      EnsembleBagging.assign_estimator e1 e2 e3 e4 e5 o w
        = (w, [], inl AssertionError)
  end.
Proof.
  unfold EnsembleBagging.assign_estimator, estimator_of.
  repeat match goal with
         | |- context [ (?a =? ?b)%string ] => destruct (a =? b)%string
         end;
    try (eexists; reflexivity); reflexivity.
Qed.

(** Every run of the bagging [run_test] with an assigned estimator: the
    calls are [fit], [predict], [score], in this order, and end at the
    first one that raises. *)
Lemma bag_run_test_shape o est w w' t r :
  estimator_of e1 e2 e3 e4 e5 (EnsembleBagging.best_algo o) = Some est ->
  EnsembleBagging.run_test e1 e2 e3 e4 e5 o w = (w', t, r) ->
  exists msg,
    let calls :=
      [Fit (name est) (EnsembleBagging.eval_series o);
       Predict (name est) (EnsembleBagging.test_series o);
       Score (name est) (EnsembleBagging.test_series o)] in
    match r with
    | inl _ =>
        exists k, (1 <= k <= 3)%nat /\ t = Warn msg :: firstn k calls
    | inr results =>
        exists st wa wb s,
          fit est (EnsembleBagging.eval_series o) w = (wa, inr st) /\
          predict est st (EnsembleBagging.test_series o) wa
            = (wb, inr results) /\
          score est st (EnsembleBagging.test_series o) wb = (w', inr s) /\
          t = Warn msg :: calls
              ++ [WarnValue "Estimator Score: %s" s;
                  ToCsv (Some (EnsembleBagging.test_series o)) results]
    end.
Proof.
  intros Hest H. unfold EnsembleBagging.run_test in H.
  pose proof (assign_estimator_log o w) as Ha. rewrite Hest in Ha.
  destruct Ha as [msg Ha]. exists msg. intros calls.
  apply bind_cases in H.
  destruct H as [(e & Hm & _) | (w1 & t1 & a & t2 & Hm & H & ->)];
    rewrite Ha in Hm; [discriminate Hm |].
  injection Hm as <- <- <-.
  apply bind_cases in H.
  destruct H as [(e & Hm & ->) | (wa & ta & st & t3 & Hm & H & ->)];
    apply call_cases in Hm; destruct Hm as [Hfit ->];
    [exists 1%nat; split; [lia | reflexivity] |].
  apply bind_cases in H.
  destruct H as [(e & Hm & ->) | (wb & tb & results & t4 & Hm & H & ->)];
    apply call_cases in Hm; destruct Hm as [Hpred ->];
    [exists 2%nat; split; [lia | reflexivity] |].
  apply bind_cases in H.
  destruct H as [(e & Hm & ->) | (wc & tc & s & t5 & Hm & H & ->)];
    apply call_cases in Hm; destruct Hm as [Hscore ->];
    [exists 3%nat; split; [lia | reflexivity] |].
  unfold bind, tell, ret in H. injection H as <- <- <-.
  exists st, wa, wb, s. repeat split; auto.
Qed.

End BaggingRunShape.

Lemma written_forecast_calls {A} (f : A -> string * list num) l :
  written (map (fun i => Forecast (fst (f i)) (snd (f i))) l) = [].
Proof. induction l; simpl; auto. Qed.

Lemma forecast_of_enumeration {world} (algo : ForecastAlgorithms world) k :
  In k enumeration <-> forecast_of algo k <> None.
Proof.
  unfold forecast_of, enumeration. split.
  - simpl. intros [<- | [<- | [<- | [<- | [<- | []]]]]]; discriminate.
  - repeat match goal with
           | |- context [ (?a =? ?b)%string ] =>
               destruct (String.eqb_spec a b) as [-> | ?]
           end; simpl; auto 10;
      intros H; now contradiction H.
Qed.

Lemma estimator_of_in_enumeration {world state}
      (e1 e2 e3 e4 e5 : Estimator world state) k :
  In k enumeration <-> estimator_of e1 e2 e3 e4 e5 k <> None.
Proof.
  unfold estimator_of, enumeration. split.
  - simpl. intros [<- | [<- | [<- | [<- | [<- | []]]]]]; discriminate.
  - repeat match goal with
           | |- context [ (?a =? ?b)%string ] =>
               destruct (String.eqb_spec a b) as [-> | ?]
           end; simpl; auto 10;
      intros H; now contradiction H.
Qed.

(** X9: the log of a cross-validation [run_test] that returns is one
    warning, then one forecast call per index of [range(test_size)] on
    [test_series[i:]], then the write of the result file; the file holds
    the [test_size] forecasts, in order, and no observation column. *)
Theorem cross_validation_run_log
        {world : Type} (algo : ForecastAlgorithms world) o w w' t results :
  EnsembleCrossValidation.run_test algo o w = (w', t, inr results) ->
  (exists msg,
      t = Warn msg
          :: map (fun i =>
                    Forecast (EnsembleCrossValidation.best_algo o)
                      (Py.slice_from
                         (EnsembleCrossValidation.test_series o) i))
                 (Py.range (EnsembleCrossValidation.test_size o))
          ++ [ToCsv None results]) /\
  List.length results = Z.to_nat (EnsembleCrossValidation.test_size o) /\
  written t = [(None, results)] /\
  In (EnsembleCrossValidation.best_algo o) enumeration.
Proof.
  intros H. apply cv_run_test_cases in H.
  destruct (forecast_of algo (EnsembleCrossValidation.best_algo o))
    as [f |] eqn:Hf; [| destruct H as (_ & _ & H); discriminate H].
  destruct H as (msg & k & Hk & -> & Hlen & ->).
  split; [exists msg; reflexivity |]. split; [exact Hlen |]. split.
  - change (Warn msg :: ?l) with ([Warn msg] ++ l).
    rewrite !written_app.
    rewrite (written_forecast_calls
               (fun i => (EnsembleCrossValidation.best_algo o,
                          Py.slice_from
                            (EnsembleCrossValidation.test_series o) i))).
    reflexivity.
  - apply (forecast_of_enumeration algo). congruence.
Qed.

Lemma cross_validation_run_log_witness :
  (exists msg,
      snd (fst Demo.run_a)
      = Warn msg
        :: map (fun i =>
                  Forecast (EnsembleCrossValidation.best_algo Demo.o_a)
                    (Py.slice_from
                       (EnsembleCrossValidation.test_series Demo.o_a) i))
               (Py.range (EnsembleCrossValidation.test_size Demo.o_a))
        ++ [ToCsv None [30#1; 30#1]]) /\
  List.length [30#1; 30#1]
  = Z.to_nat (EnsembleCrossValidation.test_size Demo.o_a) /\
  written (snd (fst Demo.run_a)) = [(None, [30#1; 30#1])] /\
  In (EnsembleCrossValidation.best_algo Demo.o_a) enumeration.
Proof.
  exact (cross_validation_run_log Demo.algo Demo.o_a
           (fst (fst Demo.init_a)) _ _ _ demo_run_a).
Defined.

(** X10: a [run_test] whose [best_algo] is not one of naive, ar, arma,
    arima, ets raises [AssertionError] at once, in both paths: nothing is
    logged, fit, forecast or written. *)
Theorem unknown_strategy_asserts
        {world state : Type} (e1 e2 e3 e4 e5 : Estimator world state)
        (algo : ForecastAlgorithms world) (w : world) :
  (forall o,
      ~ In (EnsembleCrossValidation.best_algo o) enumeration ->
      EnsembleCrossValidation.run_test algo o w
        = (w, [], inl AssertionError)) /\
  (forall o,
      ~ In (EnsembleBagging.best_algo o) enumeration ->
      EnsembleBagging.run_test e1 e2 e3 e4 e5 o w
        = (w, [], inl AssertionError)).
Proof.
  split; intros o Hnot.
  - destruct (EnsembleCrossValidation.run_test algo o w)
      as [[w' t] r] eqn:H.
    apply cv_run_test_cases in H.
    destruct (forecast_of algo (EnsembleCrossValidation.best_algo o))
      as [f |] eqn:Hf.
    + exfalso. apply Hnot, (forecast_of_enumeration algo). congruence.
    + destruct H as (-> & -> & ->). reflexivity.
  - pose proof (assign_estimator_log e1 e2 e3 e4 e5 o w) as Ha.
    destruct (estimator_of e1 e2 e3 e4 e5 (EnsembleBagging.best_algo o))
      as [est |] eqn:He.
    + exfalso. apply Hnot, (estimator_of_in_enumeration e1 e2 e3 e4 e5).
      congruence.
    + unfold EnsembleBagging.run_test, bind. now rewrite Ha.
Qed.

Lemma unknown_strategy_asserts_witness :
  let o := {| EnsembleCrossValidation.series := Demo.series_a;
              EnsembleCrossValidation.test_size := 2;
              EnsembleCrossValidation.test_series := [20#1; 30#1];
              EnsembleCrossValidation.best_algo := "lstm" |} in
  ~ In (EnsembleCrossValidation.best_algo o) enumeration /\
  EnsembleCrossValidation.run_test Demo.algo o 0%nat
    = (0%nat, [], inl AssertionError).
Proof.
  intros o.
  assert (Hnot : ~ In (EnsembleCrossValidation.best_algo o) enumeration).
  { simpl. intros [H | [H | [H | [H | [H | []]]]]]; discriminate H. }
  split; [exact Hnot |].
  apply (proj1 (unknown_strategy_asserts
                  Demo.NaiveEstimator Demo.ArEstimator Demo.ArmaEstimator
                  Demo.ArimaEstimator Demo.EtsEstimator Demo.algo 0%nat)).
  exact Hnot.
Defined.

Lemma nth_error_firstn_range k T i z :
  nth_error (firstn k (Py.range T)) i = Some z ->
  (i < k)%nat /\ (i < Z.to_nat T)%nat /\ z = Z.of_nat i.
Proof.
  rewrite nth_error_firstn.
  destruct (Nat.ltb_spec i k) as [Hik | Hik]; [| discriminate].
  unfold Py.range. rewrite nth_error_map, nth_error_seq.
  destruct (Nat.ltb_spec i (Z.to_nat T)); simpl; [| discriminate].
  intros E. injection E as <-. auto.
Qed.

(** The forecast calls of any run of the cross-validation [run_test]. *)
Lemma cv_run_forecasts {world} (algo : ForecastAlgorithms world)
      o w w' t r :
  EnsembleCrossValidation.run_test algo o w = (w', t, r) ->
  exists k,
    forecasts t
    = map (fun i => (EnsembleCrossValidation.best_algo o,
                     Py.slice_from
                       (EnsembleCrossValidation.test_series o) i))
          (firstn k (Py.range (EnsembleCrossValidation.test_size o))).
Proof.
  intros H. apply cv_run_test_cases in H.
  destruct (forecast_of algo (EnsembleCrossValidation.best_algo o));
    [| destruct H as (_ & -> & _); exists 0%nat; reflexivity].
  destruct H as (msg & k & Hk & H). destruct r as [e | results].
  - subst t. exists k. simpl. apply forecasts_walk.
  - destruct H as (-> & _ & ->).
    exists (Z.to_nat (EnsembleCrossValidation.test_size o)).
    rewrite firstn_all2 by (rewrite length_range; lia).
    change (Warn msg :: ?l) with ([Warn msg] ++ l).
    rewrite !forecasts_app, forecasts_walk. simpl. now rewrite app_nil_r.
Qed.

(** X11: in the cross-validation path the forecast window shrinks: in
    every run of [run_test] on a constructed instance, whether it returns
    or raises, the [i]-th forecast call is for [best_algo] and receives
    the last [test_size - i] values of the series and nothing else, so
    the last step forecasts from a single value. *)
Theorem forecast_window_shrinks
        {world state : Type} (e1 e2 e3 e4 e5 : Estimator world state)
        (algo : ForecastAlgorithms world)
        (series : list num) (T : Z) w w1 t1 o w2 w3 t2 r :
  EnsembleCrossValidation.__init__ e1 e2 e3 e4 e5 series T w
    = (w1, t1, inr o) ->
  EnsembleCrossValidation.run_test algo o w2 = (w3, t2, r) ->
  (List.length (forecasts t2) <= Z.to_nat T)%nat /\
  forall i algo_name data,
    nth_error (forecasts t2) i = Some (algo_name, data) ->
    algo_name = EnsembleCrossValidation.best_algo o /\
    data = skipn (List.length series - Z.to_nat T + i) series /\
    Py.len data = T - Z.of_nat i.
Proof.
  intros Hinit Hrun. apply cv_init_test_window in Hinit.
  destruct Hinit as (HT & HN & Hsize & Hlen & Htest).
  apply cv_run_forecasts in Hrun. destruct Hrun as [k Hcalls].
  rewrite Hcalls, Hsize. split.
  - rewrite length_map, length_firstn, length_range. lia.
  - intros i algo_name data Hi. rewrite nth_error_map in Hi.
    destruct (nth_error (firstn k (Py.range T)) i) as [z |] eqn:Hz;
      [| discriminate].
    apply nth_error_firstn_range in Hz. destruct Hz as (_ & HiT & ->).
    simpl in Hi. injection Hi as <- <-.
    split; [reflexivity |].
    assert (Py.slice_from (EnsembleCrossValidation.test_series o)
                          (Z.of_nat i)
            = skipn (List.length series - Z.to_nat T + i) series) as ->.
    { unfold Py.slice_from.
      rewrite slice_bound_pos by (unfold Py.len in Hlen; lia).
      rewrite Htest, skipn_skipn. f_equal. lia. }
    split; [reflexivity |].
    unfold Py.len in *. rewrite length_skipn. lia.
Qed.

Lemma demo_lagged_run_a :
  Demo.lagged_run_a
  = (fst (fst Demo.lagged_run_a), snd (fst Demo.lagged_run_a),
     inl InsufficientHistory).
Proof. vm_compute. reflexivity. Qed.

Lemma forecast_window_shrinks_witness :
  snd Demo.lagged_run_a = inl InsufficientHistory /\
  (List.length (forecasts (snd (fst Demo.lagged_run_a))) <= Z.to_nat 2)%nat /\
  forall i algo_name data,
    nth_error (forecasts (snd (fst Demo.lagged_run_a))) i
      = Some (algo_name, data) ->
    algo_name = EnsembleCrossValidation.best_algo Demo.o_a /\
    data = skipn (List.length Demo.series_a - Z.to_nat 2 + i)
                 Demo.series_a /\
    Py.len data = 2 - Z.of_nat i.
Proof.
  split; [vm_compute; reflexivity |].
  exact (forecast_window_shrinks
           Demo.NaiveEstimator Demo.ArEstimator Demo.ArmaEstimator
           Demo.ArimaEstimator Demo.EtsEstimator Demo.lagged_algo
           Demo.series_a 2 0%nat _ _ Demo.o_a (fst (fst Demo.init_a))
           _ _ _ demo_init_a demo_lagged_run_a).
Defined.



(** X13: the log of a bagging [run_test] that returns is one warning, the
    fit on the evaluation series, the prediction of the test series, the
    score on the test series, the warning with that score, and the write
    of the result file, whose columns are the test series and the
    predictions; prediction and score both use the state of the one
    fit. *)
Theorem bagging_run_log
        {world state : Type} (e1 e2 e3 e4 e5 : Estimator world state)
        o w w' t results :
  EnsembleBagging.run_test e1 e2 e3 e4 e5 o w = (w', t, inr results) ->
  exists est msg st wa wb s,
    estimator_of e1 e2 e3 e4 e5 (EnsembleBagging.best_algo o) = Some est /\
    fit est (EnsembleBagging.eval_series o) w = (wa, inr st) /\
    predict est st (EnsembleBagging.test_series o) wa
      = (wb, inr results) /\
    score est st (EnsembleBagging.test_series o) wb = (w', inr s) /\
    t = [Warn msg;
         Fit (name est) (EnsembleBagging.eval_series o);
         Predict (name est) (EnsembleBagging.test_series o);
         Score (name est) (EnsembleBagging.test_series o);
         WarnValue "Estimator Score: %s" s;
         ToCsv (Some (EnsembleBagging.test_series o)) results] /\
    written t = [(Some (EnsembleBagging.test_series o), results)].
Proof.
  intros H.
  destruct (estimator_of e1 e2 e3 e4 e5 (EnsembleBagging.best_algo o))
    as [est |] eqn:He.
  - apply (bag_run_test_shape _ _ _ _ _ _ _ _ _ _ _ He) in H.
    destruct H as (msg & st & wa & wb & s & Hf & Hp & Hs & ->).
    exists est, msg, st, wa, wb, s. repeat split; auto.
  - pose proof (assign_estimator_log e1 e2 e3 e4 e5 o w) as Ha.
    rewrite He in Ha. unfold EnsembleBagging.run_test, bind in H.
    rewrite Ha in H. discriminate H.
Qed.

Lemma bagging_run_log_witness :
  exists est msg st wa wb s,
    estimator_of Demo.NaiveEstimator Demo.ArEstimator Demo.ArmaEstimator
                 Demo.ArimaEstimator Demo.EtsEstimator
                 (EnsembleBagging.best_algo Demo.bag_o_a) = Some est /\
    fit est (EnsembleBagging.eval_series Demo.bag_o_a)
        (fst (fst Demo.bag_init_a)) = (wa, inr st) /\
    predict est st (EnsembleBagging.test_series Demo.bag_o_a) wa
      = (wb, inr [11#1; 11#1]) /\
    score est st (EnsembleBagging.test_series Demo.bag_o_a) wb
      = (fst (fst Demo.bag_run_a), inr s) /\
    snd (fst Demo.bag_run_a)
    = [Warn msg;
       Fit (name est) (EnsembleBagging.eval_series Demo.bag_o_a);
       Predict (name est) (EnsembleBagging.test_series Demo.bag_o_a);
       Score (name est) (EnsembleBagging.test_series Demo.bag_o_a);
       WarnValue "Estimator Score: %s" s;
       ToCsv (Some (EnsembleBagging.test_series Demo.bag_o_a))
             [11#1; 11#1]] /\
    written (snd (fst Demo.bag_run_a))
    = [(Some (EnsembleBagging.test_series Demo.bag_o_a), [11#1; 11#1])].
Proof.
  exact (bagging_run_log
           Demo.NaiveEstimator Demo.ArEstimator Demo.ArmaEstimator
           Demo.ArimaEstimator Demo.EtsEstimator Demo.bag_o_a
           (fst (fst Demo.bag_init_a)) _ _ _ demo_bag_run_a).
Defined.

(** ** The scripts' [main] *)

Lemma bind_raises {world A B} (m : M world A) (f : A -> M world B)
      w w1 t1 e :
  m w = (w1, t1, inl e) -> bind m f w = (w1, t1, inl e).
Proof. intros H. unfold bind. now rewrite H. Qed.

Lemma bind_tell_step {world B} ev (f : unit -> M world B) w w2 t2 r :
  f tt w = (w2, t2, r) -> bind (tell ev) f w = (w2, ev :: t2, r).
Proof. intros H. unfold bind, tell. now rewrite H. Qed.



Lemma fits_forecast_calls {A} (f : A -> string * list num) l :
  fits (map (fun i => Forecast (fst (f i)) (snd (f i))) l) = [].
Proof. induction l; simpl; auto. Qed.

(** X14: [main] needs a series of at least 353 values (342 for the test
    window and 11 for the folds) and otherwise ends before anything is
    fit: the cross-validation script raises [ValueError] for every
    shorter series; the bagging script raises [AssertionError] when the
    series has fewer than 342 values and [ValueError] when it has 342 to
    352. *)
Theorem main_needs_353_values
        {world state : Type} (e1 e2 e3 e4 e5 : Estimator world state)
        (algo : ForecastAlgorithms world) (series : list num) (w : world) :
  (Py.len series < 353 ->
   EnsembleCrossValidation.main e1 e2 e3 e4 e5 algo series w
     = (w, [Warn "Starting Ensemble Cross Validation";
            Warn "Deciding best algorithm"], inl ValueError)) /\
  (Py.len series < 342 ->
   EnsembleBagging.main e1 e2 e3 e4 e5 series w
     = (w, [Warn "Starting Ensemble Bagging"], inl AssertionError)) /\
  (342 <= Py.len series < 353 ->
   EnsembleBagging.main e1 e2 e3 e4 e5 series w
     = (w, [Warn "Starting Ensemble Bagging";
            Warn "Deciding best algorithm...";
            Warn "Scoring Naive Bagging"], inl ValueError)).
Proof.
  split; [| split]; intros HN.
  - unfold EnsembleCrossValidation.main. apply bind_tell_step.
    apply bind_raises. apply cv_init_short; lia.
  - unfold EnsembleBagging.main. apply bind_tell_step.
    apply bind_raises. apply bag_init_too_short; lia.
  - unfold EnsembleBagging.main. apply bind_tell_step.
    apply bind_raises. apply bag_init_short; lia.
Qed.

Lemma main_needs_353_values_witness :
  Py.len Demo.series_a < 353 /\
  EnsembleCrossValidation.main
    Demo.NaiveEstimator Demo.ArEstimator Demo.ArmaEstimator
    Demo.ArimaEstimator Demo.EtsEstimator Demo.algo Demo.series_a 0%nat
    = (0%nat, [Warn "Starting Ensemble Cross Validation";
               Warn "Deciding best algorithm"], inl ValueError) /\
  EnsembleBagging.main
    Demo.NaiveEstimator Demo.ArEstimator Demo.ArmaEstimator
    Demo.ArimaEstimator Demo.EtsEstimator Demo.series_a 0%nat
    = (0%nat, [Warn "Starting Ensemble Bagging"], inl AssertionError).
Proof.
  assert (H1 : Py.len Demo.series_a < 353) by (vm_compute; reflexivity).
  assert (H2 : Py.len Demo.series_a < 342) by (vm_compute; reflexivity).
  split; [exact H1 |].
  destruct (main_needs_353_values
              Demo.NaiveEstimator Demo.ArEstimator Demo.ArmaEstimator
              Demo.ArimaEstimator Demo.EtsEstimator Demo.algo
              Demo.series_a 0%nat) as (Hcv & Hbag & _).
  split; [exact (Hcv H1) | exact (Hbag H2)].
Defined.

(** X15: a [main] of the cross-validation script that returns had a
    series of at least 353 values; its log starts with the "Starting" and
    ends with the "Stopping" warning, and in between 50 estimators were
    fit, 342 forecasts were made and one result file was written, which
    holds 342 forecasts. *)
Theorem cross_validation_main_log
        {world state : Type} (e1 e2 e3 e4 e5 : Estimator world state)
        (algo : ForecastAlgorithms world) (series : list num) w w' t u :
  EnsembleCrossValidation.main e1 e2 e3 e4 e5 algo series w
    = (w', t, inr u) ->
  353 <= Py.len series /\
  exists t0 results,
    t = Warn "Starting Ensemble Cross Validation"
        :: t0 ++ [Warn "Stopping Ensemble Cross Validation"] /\
    written t = [(None, results)] /\
    List.length results = 342%nat /\
    List.length (fits t) = 50%nat /\
    List.length (forecasts t) = 342%nat.
Proof.
  intros H. unfold EnsembleCrossValidation.main in H.
  apply bind_ok in H. destruct H as (w1 & t1 & u1 & t2 & Hs & H & ->).
  apply tell_ok in Hs. destruct Hs as [-> ->].
  apply bind_ok in H. destruct H as (w2 & t3 & o & t4 & Hinit & H & ->).
  apply bind_ok in H. destruct H as (w3 & t5 & results & t6 & Hrun & H & ->).
  apply tell_ok in H. destruct H as [-> ->].
  pose proof (cv_init_test_window _ _ _ _ _ _ _ _ _ _ _ Hinit)
    as (_ & HN & Hsize & _).
  pose proof (cv_init_log_shape _ _ _ _ _ _ _ _ _ _ _ Hinit)
    as (Hlog & _ & _).
  apply cv_run_test_cases in Hrun.
  destruct (forecast_of algo (EnsembleCrossValidation.best_algo o));
    [| destruct Hrun as (_ & _ & Hrun); discriminate Hrun].
  destruct Hrun as (msg & k & _ & -> & Hlen & ->).
  rewrite Hsize in *.
  split; [lia |].
  set (calls := map _ (Py.range 342)).
  exists (t3 ++ Warn msg :: calls ++ [ToCsv None results]), results.
  split; [simpl; now rewrite <- !app_assoc |].
  assert (written calls = [] /\ fits calls = [] /\
          List.length (forecasts calls) = 342%nat) as (Hw & Hf & Hc).
  { subst calls. split; [| split].
    - apply (written_forecast_calls
               (fun i => (EnsembleCrossValidation.best_algo o,
                          Py.slice_from
                            (EnsembleCrossValidation.test_series o) i))).
    - apply (fits_forecast_calls
               (fun i => (EnsembleCrossValidation.best_algo o,
                          Py.slice_from
                            (EnsembleCrossValidation.test_series o) i))).
    - rewrite forecasts_walk, length_map, length_range. reflexivity. }
  subst t3.
  change (Warn ?x :: ?l) with ([Warn x] ++ l).
  rewrite !written_app, !fits_app, !forecasts_app, !length_app, Hw, Hf, Hc.
  repeat split; try reflexivity. exact Hlen.
Qed.

Lemma demo_main_353 :
  Demo.main_353
  = (fst (fst Demo.main_353), snd (fst Demo.main_353), inr tt).
Proof. vm_compute. reflexivity. Qed.

Lemma cross_validation_main_log_witness :
  353 <= Py.len Demo.series_353 /\
  exists t0 results,
    snd (fst Demo.main_353)
    = Warn "Starting Ensemble Cross Validation"
      :: t0 ++ [Warn "Stopping Ensemble Cross Validation"] /\
    written (snd (fst Demo.main_353)) = [(None, results)] /\
    List.length results = 342%nat /\
    List.length (fits (snd (fst Demo.main_353))) = 50%nat /\
    List.length (forecasts (snd (fst Demo.main_353))) = 342%nat.
Proof.
  exact (cross_validation_main_log
           Demo.NaiveEstimator Demo.ArEstimator Demo.ArmaEstimator
           Demo.ArimaEstimator Demo.EtsEstimator Demo.algo
           Demo.series_353 0%nat _ _ _ demo_main_353).
Defined.

(** X16: a [main] of the bagging script that returns had a series of at
    least 353 values; its log starts with the "Starting" and ends with
    the "Stopping" warning; 51 estimators were fit, the last of them on
    the series without its last 342 values; and the one result file
    written has these last 342 values as its observation column. *)
Theorem bagging_main_log
        {world state : Type} (e1 e2 e3 e4 e5 : Estimator world state)
        (series : list num) w w' t u :
  EnsembleBagging.main e1 e2 e3 e4 e5 series w = (w', t, inr u) ->
  353 <= Py.len series /\
  exists t0 results,
    t = Warn "Starting Ensemble Bagging"
        :: t0 ++ [Warn "Stopping Ensemble Bagging"] /\
    written t
    = [(Some (skipn (List.length series - 342) series), results)] /\
    List.length (fits t) = 51%nat /\
    last (fits t) [] = firstn (List.length series - 342) series.
Proof.
  intros H. unfold EnsembleBagging.main in H.
  apply bind_ok in H. destruct H as (w1 & t1 & u1 & t2 & Hs & H & ->).
  apply tell_ok in Hs. destruct Hs as [-> ->].
  apply bind_ok in H. destruct H as (w2 & t3 & o & t4 & Hinit & H & ->).
  apply bind_ok in H. destruct H as (w3 & t5 & results & t6 & Hrun & H & ->).
  apply tell_ok in H. destruct H as [-> ->].
  pose proof (bag_init_best_algo _ _ _ _ _ _ _ _ _ _ _ Hinit) as [Hbest H11].
  pose proof (bag_init_log_shape _ _ _ _ _ _ _ _ _ _ _ Hinit)
    as (score & Hlog & _).
  apply bag_init_ok in Hinit.
  destruct Hinit as (HT & _ & _ & _ & _ & Heval & Htest & _).
  pose proof (len_slice_to_neg series 342 HT) as Eto.
  pose proof (slice_bound_neg (List.length series) 342 HT) as Hb.
  change (Z.to_nat 342) with 342%nat in *.
  assert (EnsembleBagging.eval_series o
          = firstn (List.length series - 342) series) as Heval'
    by (rewrite Heval; unfold Py.slice_to; now rewrite Hb).
  assert (EnsembleBagging.test_series o
          = skipn (List.length series - 342) series) as Htest'
    by (rewrite Htest; unfold Py.slice_from; now rewrite Hb).
  destruct (estimator_of_enumeration e1 e2 e3 e4 e5 _ Hbest)
    as (est & He & _).
  apply (bag_run_test_shape _ _ _ _ _ _ _ _ _ _ _ He) in Hrun.
  destruct Hrun as (msg & st & wa & wb & s & _ & _ & _ & ->).
  rewrite Heval', Htest'.
  split; [unfold Py.len in *; lia |].
  exists (t3 ++ [Warn msg;
                 Fit (name est) (firstn (List.length series - 342) series);
                 Predict (name est)
                         (skipn (List.length series - 342) series);
                 Score (name est)
                       (skipn (List.length series - 342) series);
                 WarnValue "Estimator Score: %s" s;
                 ToCsv (Some (skipn (List.length series - 342) series))
                       results]), results.
  split; [simpl; now rewrite <- ?app_assoc |].
  subst t3. split; [| split]; reflexivity.
Qed.

Lemma demo_bag_main_353 :
  Demo.bag_main_353
  = (fst (fst Demo.bag_main_353), snd (fst Demo.bag_main_353), inr tt).
Proof. vm_compute. reflexivity. Qed.

Lemma bagging_main_log_witness :
  353 <= Py.len Demo.series_353 /\
  exists t0 results,
    snd (fst Demo.bag_main_353)
    = Warn "Starting Ensemble Bagging"
      :: t0 ++ [Warn "Stopping Ensemble Bagging"] /\
    written (snd (fst Demo.bag_main_353))
    = [(Some (skipn (List.length Demo.series_353 - 342) Demo.series_353),
        results)] /\
    List.length (fits (snd (fst Demo.bag_main_353))) = 51%nat /\
    last (fits (snd (fst Demo.bag_main_353))) []
    = firstn (List.length Demo.series_353 - 342) Demo.series_353.
Proof.
  exact (bagging_main_log
           Demo.NaiveEstimator Demo.ArEstimator Demo.ArmaEstimator
           Demo.ArimaEstimator Demo.EtsEstimator
           Demo.series_353 0%nat _ _ _ demo_bag_main_353).
Defined.

(** ** Exceptions of the estimators *)



